(** * Evidence manifest builder: extraction and consistency checking

    A shallow embedding of [make_evidence_manifest.py]: the structure
    walker, the field extractors, the job-identifier recogniser, the
    record builder, the manifest assembler with its serialisation, and
    the consistency checker behind [WARNINGS.md].

    Conventions of the embedding.
    - A Python [str] is a [string]; each character stands for the code
      point of the same number, so the model covers the code points
      0..255 and the character tables below are Python's tables on that
      range.
    - Python's [None] is [JNull]; a [dict] is an association list in
      insertion order (the keys of a parsed document are pairwise
      distinct; no result below depends on it); a [set] is a [gset].
    - A [float] is carried by its [repr] text, the only thing the program
      ever observes of it (through [str]).
    - The one exception the extracted code can raise on a parsed document
      is the [ValueError] of [int(v)]; it is threaded through a small
      error monad.
    - Two limits of the interpreter are not part of the embedding: the
      recursion limit, which [walk_all_values] reaches on values nested
      about a thousand levels deep, and the limit on the length of the
      strings [int] converts. Statements about when the program returns
      or raises carry the hypotheses [shallow] and [short_shots], which
      keep the documents within both.
    - Statements about the characters of a token speak of the class of
      the pattern ([Re.in_class]), not of a list of letters: outside
      the modelled range the class has further members. *)

From Stdlib Require Import ZArith Ascii String DecimalString.
From stdpp Require Import base tactics option list sets gmap strings sorting.

Local Open Scope string_scope.
Local Open Scope Z_scope.

(** ** Python string primitives *)

Module Py.

Definition code (c : ascii) : N := N_of_ascii c.

Definition between (lo hi : N) (c : ascii) : bool :=
  ((lo <=? code c) && (code c <=? hi))%N.

(** [str.lower] on one character: the upper-case letters of the range
    are A-Z, U+00C0..U+00D6 and U+00D8..U+00DE, each 32 below its
    lower-case form. *)
Definition lower_char (c : ascii) : ascii :=
  if between 65 90 c || between 192 214 c || between 216 222 c
  then ascii_of_N (code c + 32) else c.

Fixpoint lower (s : string) : string :=
  match s with
  | "" => ""
  | String c s' => String (lower_char c) (lower s')
  end.

(** [str.isspace] on one character. *)
Definition is_space (c : ascii) : bool :=
  between 9 13 c || between 28 32 c || between 133 133 c || between 160 160 c.

Fixpoint lstrip (s : string) : string :=
  match s with
  | "" => ""
  | String c s' => if is_space c then lstrip s' else s
  end.

Fixpoint rstrip (s : string) : string :=
  match s with
  | "" => ""
  | String c s' =>
      match rstrip s' with
      | "" => if is_space c then "" else String c ""
      | r => String c r
      end
  end.

(** [s.strip()] *)
Definition strip (s : string) : string := rstrip (lstrip s).

Definition nonempty (s : string) : bool :=
  match s with "" => false | _ => true end.

(** [s.startswith(p)] *)
Definition startswith (s p : string) : bool := String.prefix p s.

(** [s.startswith(ps)] for a tuple of prefixes *)
Definition startswith_any (s : string) (ps : list string) : bool :=
  existsb (startswith s) ps.

(** [s.endswith(p)] *)
Fixpoint endswith (s p : string) : bool :=
  if String.eqb s p then true
  else match s with
       | "" => false
       | String _ s' => endswith s' p
       end.

(** [p in s] *)
Fixpoint contains (s p : string) : bool :=
  String.prefix p s ||
  match s with
  | "" => false
  | String _ s' => contains s' p
  end.

(** [str.isdigit] on one character: 0-9 and the superscripts
    U+00B2, U+00B3, U+00B9. *)
Definition isdigit_char (c : ascii) : bool :=
  between 48 57 c || between 178 179 c || between 185 185 c.

Fixpoint all_chars (p : ascii → bool) (s : string) : bool :=
  match s with
  | "" => true
  | String c s' => p c && all_chars p s'
  end.

(** [s.isdigit()]: at least one character and every one a digit. *)
Definition isdigit (s : string) : bool := nonempty s && all_chars isdigit_char s.

Inductive exn := ValueError.

Inductive result (A : Type) :=
| Ok (a : A)
| Raise (e : exn).
Arguments Ok {A} a.
Arguments Raise {A} e.

#[global] Instance result_ret : MRet result := λ A a, Ok a.

#[global] Instance result_bind : MBind result := λ A B k m,
  match m with
  | Ok a => k a
  | Raise e => Raise e
  end.

#[global] Instance result_fmap : FMap result := λ A B f m,
  match m with
  | Ok a => Ok (f a)
  | Raise e => Raise e
  end.

(** [int(s)] on a string that passed [isdigit]: the decimal value when
    every character is one of 0-9, [ValueError] on a superscript
    digit. *)
Fixpoint int_digits (acc : Z) (s : string) : result Z :=
  match s with
  | "" => Ok acc
  | String c s' =>
      if between 48 57 c
      then int_digits (10 * acc + Z.of_N (code c - 48)) s'
      else Raise ValueError
  end.

Definition int_of_str (s : string) : result Z := int_digits 0 s.

(** [str(n)] for an [int] *)
Definition str_of_int (n : Z) : string := NilZero.string_of_int (Z.to_int n).

(** [sep.join(l)] *)
Fixpoint join (sep : string) (l : list string) : string :=
  match l with
  | [] => ""
  | [x] => x
  | x :: l' => x +:+ sep +:+ join sep l'
  end.

Definition newline : string := String (ascii_of_N 10) "".

End Py.

(** ** The regular expression [JOB_ID_TOKEN_RE]

    [re.compile(r"\b[a-z0-9]{10,40}\b", re.IGNORECASE)], matched the way
    the backtracking engine does: a word boundary, a greedy bounded
    repetition of the character class that gives characters back one at
    a time, and a closing word boundary. *)

Module Re.

(** [\w] on one character (letters, digits, numerics and the
    underscore). *)
Definition is_word (c : ascii) : bool :=
  Py.between 48 57 c || Py.between 65 90 c || Py.between 95 95 c ||
  Py.between 97 122 c || Py.between 170 170 c || Py.between 178 179 c ||
  Py.between 181 181 c || Py.between 185 186 c || Py.between 188 190 c ||
  Py.between 192 214 c || Py.between 216 246 c || Py.between 248 255 c.

(** [[a-z0-9]] under [IGNORECASE] *)
Definition in_class (c : ascii) : bool :=
  Py.between 48 57 c || Py.between 65 90 c || Py.between 97 122 c.

Definition word_before (prev : option ascii) : bool :=
  match prev with Some c => is_word c | None => false end.

Definition word_here (s : string) : bool :=
  match s with String c _ => is_word c | "" => false end.

(** [\b] between the character before the position and the rest of the
    subject. *)
Definition boundary (prev : option ascii) (s : string) : bool :=
  xorb (word_before prev) (word_here s).

Definition min_rep : nat := 10.
Definition max_rep : nat := 40.

(** The repetition followed by the closing [\b]: [more] further
    characters may be taken, [k] have been taken; the longer match is
    tried first and the match may stop here once [min_rep] characters
    are in. Returns the characters matched from this position on. *)
Fixpoint rep (more k : nat) (prev : option ascii) (s : string) : option string :=
  let stop := if (min_rep <=? k)%nat && boundary prev s then Some "" else None in
  match more, s with
  | S more', String c s' =>
      if in_class c then
        match rep more' (S k) (Some c) s' with
        | Some t => Some (String c t)
        | None => stop
        end
      else stop
  | _, _ => stop
  end.

(** One attempt of the whole pattern at a position. *)
Definition match_here (prev : option ascii) (s : string) : option string :=
  if boundary prev s then rep max_rep 0 prev s else None.

(** [findall]: attempts at successive positions; after a match the scan
    resumes behind it ([skip] counts the characters of the match still
    to pass). *)
Fixpoint findall_from (skip : nat) (prev : option ascii) (s : string) : list string :=
  match s with
  | "" => []
  | String c s' =>
      match skip with
      | S k => findall_from k (Some c) s'
      | O =>
          match match_here prev s with
          | Some t => t :: findall_from (String.length t - 1) (Some c) s'
          | None => findall_from 0 (Some c) s'
          end
      end
  end.

Definition findall (s : string) : list string := findall_from 0 None s.

End Re.

(** ** Evidence documents *)

#[local] Set Warnings "-register-all".

(** What [json.loads] returns. [JBool] is kept apart from [JInt]
    although [isinstance(True, int)] holds; the tests below spell that
    out where the program relies on it. *)
Inductive json :=
| JNull
| JBool (b : bool)
| JInt (n : Z)
| JFloat (repr : string)
| JStr (s : string)
| JList (l : list json)
| JDict (d : list (string * json)).

Abbreviation dict := (list (string * json)).

(** [k in d] and [d[k]] *)
Fixpoint dict_lookup (d : dict) (k : string) : option json :=
  match d with
  | [] => None
  | (k', v) :: d' => if String.eqb k' k then Some v else dict_lookup d' k
  end.

(** [d.get(k)] *)
Definition dict_get (d : dict) (k : string) : json :=
  default JNull (dict_lookup d k).

(** [isinstance(v, str)], giving the string *)
Definition as_str (v : json) : option string :=
  match v with JStr s => Some s | _ => None end.

(** The first element a loop with an early [return] stops at. *)
Fixpoint first_some {A B} (f : A → option B) (l : list A) : option B :=
  match l with
  | [] => None
  | x :: l' => match f x with Some y => Some y | None => first_some f l' end
  end.

(** *** Utils *)

(** Leaves and mapping keys, depth first, in encounter order. *)
Fixpoint walk_all_values (obj : json) : list json :=
  match obj with
  | JDict d => flat_map (λ kv, JStr kv.1 :: walk_all_values kv.2) d
  | JList l => flat_map walk_all_values l
  | _ => [obj]
  end.

Fixpoint deep_get (obj : json) (path : list string) : json :=
  match path with
  | [] => obj
  | k :: path' =>
      match obj with
      | JDict d =>
          match dict_lookup d k with
          | Some v => deep_get v path'
          | None => JNull
          end
      | _ => JNull
      end
  end.

(** [ensure_text(v)] for the values the scan keeps, those with
    [isinstance(v, (str, int, float))]; a [bool] is an [int] and prints
    as [True] or [False]. *)
Definition scalar_text (v : json) : option string :=
  match v with
  | JStr s => Some s
  | JInt n => Some (Py.str_of_int n)
  | JBool b => Some (if b then "True" else "False")
  | JFloat r => Some r
  | _ => None
  end.

(** *** Extraction *)

Definition LIKELY_JOB_PREFIX : list string := ["d0"; "c0"].

(** The [seen]/[out] loop: one step for a string that passed the tests
    before it. *)
Definition keep_new (st : gset string * list string) (x : string)
  : gset string * list string :=
  if decide (x ∈ st.1) then st else ({[x]} ∪ st.1, (st.2 ++ [x])%list).

Definition extract_job_ids_from_text (text : string) : list string :=
  let cands := Re.findall (Py.lower text) in
  let ids :=
    filter (λ c, Py.startswith_any c LIKELY_JOB_PREFIX = true
                 ∧ (12 ≤ String.length c)%nat) cands in
  (foldl keep_new (∅, []) ids).2.

Definition direct_str_keys : list string := ["job_id"; "jobId"; "runtime_job_id"].
Definition direct_list_keys : list string := ["job_ids"; "jobIds"; "jobs"; "ibm_job_ids"].

Definition nested_paths : list (list string) :=
  [ ["execution_metadata"; "job_id"];
    ["execution_metadata"; "jobId"];
    ["proof"; "execution_metadata"; "job_id"];
    ["proof"; "execution_metadata"; "jobId"];
    ["ibm"; "job_id"];
    ["ibm"; "jobId"] ].

(** [[x for x in v if isinstance(x, str)]] when [v] is a list *)
Definition str_items (v : json) : list string :=
  match v with
  | JList l => omap as_str l
  | _ => []
  end.

(** Step 1, the direct keys. *)
Definition direct_ids (obj : json) : list string :=
  match obj with
  | JDict d =>
      (omap (λ k, as_str (dict_get d k)) direct_str_keys
       ++ flat_map (λ k, str_items (dict_get d k)) direct_list_keys)%list
  | _ => []
  end.

(** Step 2, the nested key paths. *)
Definition nested_ids (obj : json) : list string :=
  omap (λ p, as_str (deep_get obj p)) nested_paths.

(** Step 3, the text the scan runs over. *)
Definition all_text (obj : json) : string :=
  Py.join Py.newline (omap scalar_text (walk_all_values obj)).

(** The closing loop of [extract_job_ids]: strip, drop the empty, fold
    the case, test the prefix, keep the first occurrence. Every element
    of [ids] is a string, so its [isinstance] test never fires. *)
Definition normalize_step (st : gset string * list string) (x : string)
  : gset string * list string :=
  let x := Py.strip x in
  if Py.nonempty x then
    let xlow := Py.lower x in
    if Py.startswith_any xlow LIKELY_JOB_PREFIX then keep_new st xlow else st
  else st.

Definition normalize_ids (ids : list string) : list string :=
  (foldl normalize_step (∅, []) ids).2.

Definition extract_job_ids (obj : json) : list string :=
  normalize_ids
    (direct_ids obj ++ nested_ids obj
     ++ extract_job_ids_from_text (all_text obj))%list.

(** [isinstance(v, str) and v.strip()], giving [v.strip()] *)
Definition stripped_str (v : json) : option string :=
  match v with
  | JStr s => if Py.nonempty (Py.strip s) then Some (Py.strip s) else None
  | _ => None
  end.

Definition backend_candidates : list (list string) :=
  [ ["backend"];
    ["hardware"; "backend"];
    ["execution_metadata"; "backend"];
    ["proof"; "execution_metadata"; "backend"];
    ["ibm"; "backend"];
    ["summary"; "backend"] ].

Definition ibm_string (v : json) : option string :=
  match v with
  | JStr s => if Py.startswith s "ibm_" then Some s else None
  | _ => None
  end.

Definition extract_backend (obj : json) : option string :=
  match first_some (λ p, stripped_str (deep_get obj p)) backend_candidates with
  | Some b => Some b
  | None => first_some ibm_string (walk_all_values obj)
  end.

(** A Python [int] as the program returns it: [True] is one too. *)
Inductive pyint :=
| PInt (n : Z)
| PBool (b : bool).

Definition int_value (v : pyint) : Z :=
  match v with
  | PInt n => n
  | PBool b => if b then 1 else 0
  end.

(** [isinstance(v, int) and v > 0], giving [v] *)
Definition positive_int (v : json) : option pyint :=
  match v with
  | JInt n => if 0 <? n then Some (PInt n) else None
  | JBool b => if b then Some (PBool b) else None
  | _ => None
  end.

Definition shots_candidates : list (list string) :=
  [ ["shots"];
    ["summary"; "shots"];
    ["execution_metadata"; "shots"];
    ["proof"; "execution_metadata"; "shots"];
    ["ibm"; "shots"] ].

Definition runs_keys : list string := ["runs"; "results"; "jobs"; "executions"].

(** The fallback over the lists of sub-runs. *)
Definition shots_fallback (obj : json) : option pyint :=
  match obj with
  | JDict d =>
      first_some
        (λ k, match dict_get d k with
              | JList l => first_some (λ item, positive_int (deep_get item ["shots"])) l
              | _ => None
              end)
        runs_keys
  | _ => None
  end.

(** The loop over the candidate locations; [int(v)] may raise. *)
Fixpoint shots_loop (obj : json) (cands : list (list string))
  : Py.result (option pyint) :=
  match cands with
  | [] => mret (shots_fallback obj)
  | p :: cands' =>
      let v := deep_get obj p in
      match positive_int v with
      | Some n => mret (Some n)
      | None =>
          match v with
          | JStr s =>
              if Py.isdigit s
              then n ← Py.int_of_str s; mret (Some (PInt n))
              else shots_loop obj cands'
          | _ => shots_loop obj cands'
          end
      end
  end.

Definition extract_shots (obj : json) : Py.result (option pyint) :=
  shots_loop obj shots_candidates.

Definition timestamp_keys : list string :=
  ["timestamp"; "created_utc"; "created"; "time"; "date"].

Definition timestamp_paths : list (list string) :=
  [ ["summary"; "timestamp"];
    ["metadata"; "timestamp"];
    ["execution_metadata"; "timestamp"] ].

Definition extract_timestamp (obj : json) : option string :=
  let direct :=
    match obj with
    | JDict d => first_some (λ k, stripped_str (dict_get d k)) timestamp_keys
    | _ => None
    end in
  match direct with
  | Some t => Some t
  | None => first_some (λ p, stripped_str (deep_get obj p)) timestamp_paths
  end.

Definition detect_evidence_group_id (obj : json) (fallback : string) : string :=
  match obj with
  | JDict d => default fallback (stripped_str (dict_get d "evidence_group_id"))
  | _ => fallback
  end.

(** ** Paths *)

(** A path below the evidence directory is the list of its components,
    the way [pathlib] holds it. *)
Abbreviation path := (list string).

Module PathLib.

(** [p.name] *)
Definition name (p : path) : string := List.last p "".

(** The text before the last dot of a string and the text from that dot
    on ([rfind]). *)
Fixpoint rsplit_dot (s : string) : option (string * string) :=
  match s with
  | "" => None
  | String c s' =>
      match rsplit_dot s' with
      | Some (a, b) => Some (String c a, b)
      | None => if Ascii.eqb c "." then Some ("", s) else None
      end
  end.

(** [0 < i < len(name) - 1] for the index [i] of the last dot *)
Definition splits_name (ab : string * string) : bool :=
  ((0 <? String.length ab.1) && (1 <? String.length ab.2))%nat.

(** [p.suffix] *)
Definition suffix (p : path) : string :=
  match rsplit_dot (name p) with
  | Some ab => if splits_name ab then ab.2 else ""
  | None => ""
  end.

(** [p.stem] *)
Definition stem (p : path) : string :=
  match rsplit_dot (name p) with
  | Some ab => if splits_name ab then ab.1 else name p
  | None => name p
  end.

(** [str(p.relative_to(base_dir))] *)
Definition to_str (p : path) : string := Py.join "/" p.

(** [p <= q]: the component lists compared as Python compares lists, at
    the first component that differs. *)
Fixpoint parts_le (p q : path) : bool :=
  match p, q with
  | [], _ => true
  | _ :: _, [] => false
  | x :: p', y :: q' => if String.eqb x y then parts_le p' q' else String.leb x y
  end.

End PathLib.

(** ** Files + outputs *)

(** What the collaborators supply for one file of the evidence
    directory. *)
Record file_in := {
  f_path : path;            (* the path below [base_dir] *)
  f_sha256 : string;        (* [sha256_file(path)] *)
  f_size : Z;               (* [path.stat().st_size] *)
  f_text : string;          (* the text [write_warnings_md] reads *)
  f_parsed : option json    (* [json.loads(...)], [None] when it raises *)
}.

Record entry := {
  e_file : string;
  e_sha256 : string;
  e_size_bytes : Z;
  e_git_commit : string;
  e_evidence_group_id : string;
  e_backend : option string;
  e_timestamp : option string;
  e_shots : option pyint;
  e_job_ids : option (list string)
}.

(** [if s:] on an optional string, [if l:] on a list *)
Definition if_str (s : option string) : option string :=
  match s with
  | Some t => if Py.nonempty t then Some t else None
  | None => None
  end.

Definition if_list {A} (l : list A) : option (list A) :=
  match l with
  | [] => None
  | _ => Some l
  end.

(** [obj] is an optional [dict]; [if obj] fails on [None] and on the
    empty [dict] alike. *)
Definition build_entry (f : file_in) (obj : option dict) (git_commit : string)
  : Py.result entry :=
  let rel := PathLib.to_str (f_path f) in
  let stem := PathLib.stem (f_path f) in
  match obj with
  | Some ((_ :: _) as d) =>
      let group := detect_evidence_group_id (JDict d) stem in
      let backend := extract_backend (JDict d) in
      let ts := extract_timestamp (JDict d) in
      shots ← extract_shots (JDict d);
      let job_ids := extract_job_ids (JDict d) in
      mret {| e_file := rel; e_sha256 := f_sha256 f; e_size_bytes := f_size f;
              e_git_commit := git_commit; e_evidence_group_id := group;
              e_backend := if_str backend; e_timestamp := if_str ts;
              e_shots := shots; e_job_ids := if_list job_ids |}
  | _ =>
      mret {| e_file := rel; e_sha256 := f_sha256 f; e_size_bytes := f_size f;
              e_git_commit := git_commit; e_evidence_group_id := stem;
              e_backend := None; e_timestamp := None;
              e_shots := None; e_job_ids := None |}
  end.

Record manifest := {
  schema_version : Z;
  generated_utc : string;
  git_commit : string;
  evidence_sets : list entry
}.

(** *** The consistency report *)

Definition is_md (f : string) : bool := Py.endswith (Py.lower f) ".md".
Definition is_json (f : string) : bool := Py.endswith (Py.lower f) ".json".

(** One round of the loop over the records: the pair is
    [(json_job_ids, dashboard_job_ids)]. *)
Definition scan_entry (read_text : string → string)
    (st : gset string * gset string) (e : entry) : gset string * gset string :=
  let f := e_file e in
  let dashboard :=
    if is_md f then
      let text := read_text f in
      let ids := extract_job_ids_from_text text in
      if Py.contains (Py.lower text) "dashboard"
      then st.2 ∪ list_to_set ids else st.2
    else st.2 in
  let json_ids :=
    match e_job_ids e with
    | Some ids => if is_json f then st.1 ∪ list_to_set (Py.lower <$> ids) else st.1
    | None => st.1
    end in
  (json_ids, dashboard).

Definition scan_entries (read_text : string → string) (sets : list entry)
  : gset string * gset string :=
  foldl (scan_entry read_text) (∅, ∅) sets.

(** [[e["file"] for e in sets if e["file"].lower().endswith(".json") and key not in e]] *)
Definition missing_field {A} (field : entry → option A) (sets : list entry)
  : list string :=
  e_file <$> filter (λ e, is_json (e_file e) = true ∧ field e = None) sets.

(** The findings [write_warnings_md] renders. *)
Record warnings := {
  missing_in_json : list string;
  missing_backend : list string;
  missing_shots : list string;
  missing_timestamp : list string;
  missing_job_ids : list string
}.

Definition write_warnings_md (read_text : string → string) (m : manifest)
  : warnings :=
  let sets := evidence_sets m in
  let st := scan_entries read_text sets in
  {| missing_in_json :=
       merge_sort String.le
         (filter (λ jid, Py.lower jid ∉ st.1) (elements st.2));
     missing_backend := missing_field e_backend sets;
     missing_shots := missing_field e_shots sets;
     missing_timestamp := missing_field e_timestamp sets;
     missing_job_ids := missing_field e_job_ids sets |}.

(** *** Serialisation: [json.dumps(manifest, indent=2, sort_keys=True)] *)

Module JsonEnc.

Definition dquote : string := String (ascii_of_N 34) "".
Definition backslash : string := String (ascii_of_N 92) "".

Definition hex_digit (n : N) : string :=
  String (ascii_of_N (if (n <? 10)%N then 48 + n else 87 + n)%N) "".

(** One character under [ensure_ascii]. *)
Definition escape_char (c : ascii) : string :=
  let n := Py.code c in
  if (n =? 34)%N then backslash +:+ dquote
  else if (n =? 92)%N then backslash +:+ backslash
  else if (n =? 10)%N then backslash +:+ "n"
  else if (n =? 13)%N then backslash +:+ "r"
  else if (n =? 9)%N then backslash +:+ "t"
  else if (n =? 8)%N then backslash +:+ "b"
  else if (n =? 12)%N then backslash +:+ "f"
  else if Py.between 32 126 c then String c ""
  else backslash +:+ "u00" +:+ hex_digit (n / 16) +:+ hex_digit (n mod 16).

Fixpoint escape (s : string) : string :=
  match s with
  | "" => ""
  | String c s' => escape_char c +:+ escape s'
  end.

Definition encode_str (s : string) : string := dquote +:+ escape s +:+ dquote.

Fixpoint spaces (n : nat) : string :=
  match n with
  | O => ""
  | S n' => String " " (spaces n')
  end.

(** A line break and the indentation of nesting level [level]. *)
Definition newline_indent (level : nat) : string :=
  Py.newline +:+ spaces (2 * level).

Definition float_text (r : string) : string :=
  if String.eqb r "nan" then "NaN"
  else if String.eqb r "inf" then "Infinity"
  else if String.eqb r "-inf" then "-Infinity"
  else r.

Definition key_le (a b : string * string) : Prop := String.le a.1 b.1.

#[global] Instance key_le_dec : RelDecision key_le.
Proof. intros a b. unfold key_le. apply _. Defined.

Definition block (open close : string) (level : nat) (items : list string) : string :=
  match items with
  | [] => open +:+ close
  | _ =>
      open +:+ newline_indent (S level)
      +:+ Py.join ("," +:+ newline_indent (S level)) items
      +:+ newline_indent level +:+ close
  end.

Fixpoint dumps_at (level : nat) (v : json) : string :=
  match v with
  | JNull => "null"
  | JBool b => if b then "true" else "false"
  | JInt n => Py.str_of_int n
  | JFloat r => float_text r
  | JStr s => encode_str s
  | JList l => block "[" "]" level (dumps_at (S level) <$> l)
  | JDict d =>
      let items := (λ kv, (kv.1, dumps_at (S level) kv.2)) <$> d in
      block "{" "}" level
        ((λ kt, encode_str kt.1 +:+ ": " +:+ kt.2) <$> merge_sort key_le items)
  end.

Definition dumps (v : json) : string := dumps_at 0 v.

End JsonEnc.

Definition pyint_json (v : pyint) : json :=
  match v with
  | PInt n => JInt n
  | PBool b => JBool b
  end.

(** The [dict] a record is, keys in insertion order. *)
Definition entry_json (e : entry) : json :=
  JDict
    ([ ("file", JStr (e_file e));
       ("sha256", JStr (e_sha256 e));
       ("size_bytes", JInt (e_size_bytes e));
       ("git_commit", JStr (e_git_commit e));
       ("evidence_group_id", JStr (e_evidence_group_id e)) ]
     ++ option_list ((λ b, ("backend", JStr b)) <$> e_backend e)
     ++ option_list ((λ t, ("timestamp", JStr t)) <$> e_timestamp e)
     ++ option_list ((λ n, ("shots", pyint_json n)) <$> e_shots e)
     ++ option_list ((λ l, ("job_ids", JList (JStr <$> l))) <$> e_job_ids e))%list.

Definition manifest_json (m : manifest) : json :=
  JDict
    [ ("schema_version", JInt (schema_version m));
      ("generated_utc", JStr (generated_utc m));
      ("git_commit", JStr (git_commit m));
      ("evidence_sets", JList (entry_json <$> evidence_sets m)) ].

(** *** [main] *)

Definition suffix_lower (f : file_in) : string :=
  Py.lower (PathLib.suffix (f_path f)).

(** [p.suffix.lower() in (".json", ".md")] *)
Definition is_candidate (f : file_in) : bool :=
  String.eqb (suffix_lower f) ".json" || String.eqb (suffix_lower f) ".md".

Definition file_le (f g : file_in) : Prop :=
  PathLib.parts_le (f_path f) (f_path g) = true.

#[global] Instance file_le_dec : RelDecision file_le.
Proof. intros f g. unfold file_le. apply _. Defined.

(** The sorted candidates among the enumerated files. The paths of a
    directory are pairwise distinct, so [sorted] has one possible
    result, the one [merge_sort] computes. *)
Definition candidates (files : list file_in) : list file_in :=
  merge_sort file_le (filter (λ f, is_candidate f = true) files).

(** The document handed to [build_entry]: parsed only for [.json], a
    value that is no mapping wrapped under [_root], [None] when parsing
    raised. *)
Definition load_obj (f : file_in) : option dict :=
  if String.eqb (suffix_lower f) ".json" then
    match f_parsed f with
    | Some (JDict d) => Some d
    | Some v => Some [("_root", v)]
    | None => None
    end
  else None.

(** The loop that fills [entries]. *)
Fixpoint collect_entries (cands : list file_in) (git_commit : string)
  : Py.result (list entry) :=
  match cands with
  | [] => mret []
  | p :: cands' =>
      e ← build_entry p (load_obj p) git_commit;
      es ← collect_entries cands' git_commit;
      mret (e :: es)
  end.

(** The [manifest] dictionary of [main]. *)
Definition assemble (files : list file_in) (git_commit generated : string)
  : Py.result manifest :=
  entries ← collect_entries (candidates files) git_commit;
  mret {| schema_version := 2; generated_utc := generated;
          git_commit := git_commit; evidence_sets := entries |}.

(** The text of the file a record names, as the checker reads it back. *)
Definition read_back (files : list file_in) (rel : string) : string :=
  default "" (f_text <$> List.find (λ f, String.eqb (PathLib.to_str (f_path f)) rel) files).

(** What a run produces from the enumerated files, the revision and the
    generation time: the text written to [manifest.json] and the
    findings behind [WARNINGS.md]. *)
Definition main (files : list file_in) (git_commit generated : string)
  : Py.result (string * warnings) :=
  m ← assemble files git_commit generated;
  mret (JsonEnc.dumps (manifest_json m), write_warnings_md (read_back files) m).

(** ** Vocabulary of the statements *)

(** [[a-z0-9]]: what a character of the class is once case-folded. *)
Definition lower_alnum (c : ascii) : bool :=
  Py.between 48 57 c || Py.between 97 122 c.

(** A character that is its own case-folding. *)
Definition folded_char (c : ascii) : bool := Ascii.eqb (Py.lower_char c) c.

(** The [seen] set and the [out] list of a de-duplicating loop hold the
    same strings. *)
Definition synced (st : gset string * list string) : Prop :=
  ∀ y, y ∈ st.1 ↔ y ∈ st.2.

(** What the closing loop of [extract_job_ids] makes of one candidate:
    the stripped, case-folded string when it is kept. *)
Definition normalize (x : string) : option string :=
  let x := Py.strip x in
  if Py.nonempty x then
    if Py.startswith_any (Py.lower x) LIKELY_JOB_PREFIX
    then Some (Py.lower x) else None
  else None.

(** The shape the specification gives every returned identifier: 10 to
    40 letters and digits, a recognised prefix once case-folded, and at
    least 12 characters. *)
Definition token_shape (x : string) : bool :=
  (10 <=? String.length x)%nat && (String.length x <=? 40)%nat
  && Py.all_chars Re.in_class x
  && Py.startswith_any (Py.lower x) LIKELY_JOB_PREFIX
  && (12 <=? String.length x)%nat.

(** The candidates of the structured lookups, steps 1 and 2. *)
Definition structured_candidates (obj : json) : list string :=
  (direct_ids obj ++ nested_ids obj)%list.

(** ** Sample inputs *)

(** A document with an identifier under a direct key and another one
    in running text. *)
Definition sample_doc : json :=
  JDict [ ("job_id", JStr " D0XY ");
          ("runs", JList [JDict [("shots", JInt 500)]]);
          ("note", JStr "see job C0a1b2c3d4e5f on ibm_brisbane");
          ("created", JStr " 2024 ") ].

(** A [.json] file whose text does not parse. *)
Definition broken_file : file_in :=
  {| f_path := ["out"; "run1.json"]; f_sha256 := "9f86d081884c7d65";
     f_size := 9; f_text := "{ shots: "; f_parsed := None |}.

(** A [.json] file holding the list [["ibm_brisbane"]]. *)
Definition list_file : file_in :=
  {| f_path := ["backends.json"]; f_sha256 := "60303ae22b998861";
     f_size := 16; f_text := "[ibm_brisbane]";
     f_parsed := Some (JList [JStr "ibm_brisbane"]) |}.

(** A markdown file that mentions the dashboard and a job identifier. *)
Definition dashboard_file : file_in :=
  {| f_path := ["notes"; "dashboard.md"]; f_sha256 := "2c26b46b68ffc68f";
     f_size := 48;
     f_text := "IBM Quantum Dashboard: job d0a1b2c3d4e5 finished";
     f_parsed := None |}.

(** A [.json] file holding [sample_doc]. *)
Definition sample_file : file_in :=
  {| f_path := ["out"; "run2.json"]; f_sha256 := "fcde2b2edba56bf4";
     f_size := 120; f_text := ""; f_parsed := Some sample_doc |}.

(** An identifier the text scan finds in a narrative document: a [.md]
    file of the manifest whose text holds the marker word. *)
Definition narrative_id (read_text : string → string) (sets : list entry)
    (x : string) : Prop :=
  ∃ e, e ∈ sets
    ∧ is_md (e_file e) = true
    ∧ Py.contains (Py.lower (read_text (e_file e))) "dashboard" = true
    ∧ x ∈ extract_job_ids_from_text (read_text (e_file e)).

(** An identifier in the job-identifier list of some structured record
    of the manifest. *)
Definition structured_id (sets : list entry) (x : string) : Prop :=
  ∃ e ids, e ∈ sets
    ∧ is_json (e_file e) = true
    ∧ e_job_ids e = Some ids
    ∧ x ∈ ids.

(** The records hold their job identifiers case-folded, as
    [extract_job_ids] leaves them. *)
Definition folded_ids (sets : list entry) : bool :=
  forallb
    (λ e, match e_job_ids e with
          | Some ids => forallb (λ y, String.eqb (Py.lower y) y) ids
          | None => true
          end)
    sets.

(** A [.json] file with a shot count and no job identifier. *)
Definition plain_file : file_in :=
  {| f_path := ["out"; "run3.json"]; f_sha256 := "d4735e3a265e16ee";
     f_size := 14; f_text := "";
     f_parsed := Some (JDict [("shots", JInt 100)]) |}.

(** The candidate locations of the timestamp, in the order tried: the
    five direct keys, then the three nested paths. *)
Definition timestamp_locations : list (list string) :=
  (((λ k, [k]) <$> timestamp_keys) ++ timestamp_paths)%list.

(** A [.json] file holding the empty document. *)
Definition empty_file : file_in :=
  {| f_path := ["out"; "empty.json"]; f_sha256 := "44136fa355b3678a";
     f_size := 2; f_text := "{}"; f_parsed := Some (JDict []) |}.

Definition sample_time : string := "2024-05-01T00:00:00+00:00".

(** A manifest of two records, a narrative document and a structured
    record with two job identifiers, and the text read back for the
    narrative document. *)
Definition sample_manifest : manifest :=
  {| schema_version := 2; generated_utc := sample_time; git_commit := "4f2a";
     evidence_sets :=
       [ {| e_file := "notes/dashboard.md"; e_sha256 := "2c26b46b68ffc68f";
            e_size_bytes := 48; e_git_commit := "4f2a";
            e_evidence_group_id := "dashboard"; e_backend := None;
            e_timestamp := None; e_shots := None; e_job_ids := None |};
         {| e_file := "out/run2.json"; e_sha256 := "fcde2b2edba56bf4";
            e_size_bytes := 120; e_git_commit := "4f2a";
            e_evidence_group_id := "run2"; e_backend := None;
            e_timestamp := Some "2024"; e_shots := Some (PInt 500);
            e_job_ids := Some ["d0xy"; "c0a1b2c3d4e5f"] |} ] |}.

Definition sample_text (rel : string) : string :=
  "IBM Quantum Dashboard: jobs d0a1b2c3d4e5 and c0a1b2c3d4e5f".

(** The manifest [main] assembles from [dashboard_file] and
    [plain_file]. *)
Definition dashboard_manifest : manifest :=
  {| schema_version := 2; generated_utc := sample_time; git_commit := "4f2a";
     evidence_sets :=
       [ {| e_file := "notes/dashboard.md"; e_sha256 := "2c26b46b68ffc68f";
            e_size_bytes := 48; e_git_commit := "4f2a";
            e_evidence_group_id := "dashboard"; e_backend := None;
            e_timestamp := None; e_shots := None; e_job_ids := None |};
         {| e_file := "out/run3.json"; e_sha256 := "d4735e3a265e16ee";
            e_size_bytes := 14; e_git_commit := "4f2a";
            e_evidence_group_id := "run3"; e_backend := None;
            e_timestamp := None; e_shots := Some (PInt 100);
            e_job_ids := None |} ] |}.

(** ** Further functions of the module *)

(** [find_first_str(obj, keys)] *)
Definition find_first_str (obj : json) (keys : list string) : option string :=
  match obj with
  | JDict d => first_some (λ k, stripped_str (dict_get d k)) keys
  | _ => None
  end.

(** [sorted(l, key=...)] on string keys: a stable sort, an element going
    in front of the first later element whose key is not smaller. *)
Fixpoint insert_by {A} (key : A → string) (x : A) (l : list A) : list A :=
  match l with
  | [] => [x]
  | y :: l' =>
      if String.leb (key x) (key y) then x :: y :: l' else y :: insert_by key x l'
  end.

Definition sorted_by {A} (key : A → string) (l : list A) : list A :=
  foldr (insert_by key) [] l.

(** One line of [SHA256SUMS]: the digest, two blanks, the file. *)
Definition sha_line (e : entry) : string :=
  e_sha256 e +:+ "  " +:+ e_file e.

Definition sha256sums_lines (entries : list entry) : list string :=
  sha_line <$> sorted_by e_file entries.

(** The text [write_sha256sums] writes. *)
Definition write_sha256sums (entries : list entry) : string :=
  Py.join Py.newline (sha256sums_lines entries) +:+ Py.newline.

(** ** Further vocabulary *)

(** A value that is neither a list nor a mapping. *)
Definition is_scalar (v : json) : bool :=
  match v with
  | JList _ | JDict _ => false
  | _ => true
  end.

(** [nested obj v]: the value [v] occurs in [obj], at any depth. *)
Inductive nested : json → json → Prop :=
| nested_here obj : nested obj obj
| nested_item l x v : x ∈ l → nested x v → nested (JList l) v
| nested_value d k x v : (k, x) ∈ d → nested x v → nested (JDict d) v.

(** [0-9] *)
Definition ascii_digit (c : ascii) : bool := Py.between 48 57 c.

(** A printable ASCII character or a line feed. *)
Definition plain_char (c : ascii) : bool :=
  Py.between 32 126 c || Py.between 10 10 c.

(** The last character before a position: the last one of [s], or
    [prev] when [s] is empty. *)
Fixpoint last_char (prev : option ascii) (s : string) : option ascii :=
  match s with
  | "" => prev
  | String c s' => last_char (Some c) s'
  end.

(** A value without a [float] in it. *)
Fixpoint float_free (v : json) : bool :=
  match v with
  | JFloat _ => false
  | JList l => forallb float_free l
  | JDict d => forallb (λ kv, float_free kv.2) d
  | _ => true
  end.

(** The order [write_sha256sums] sorts the records by. *)
Definition by_file (a b : entry) : Prop := String.le (e_file a) (e_file b).

(** A document whose shot count is the superscript digit two. *)
Definition superscript_doc : json :=
  JDict [("shots", JStr (String (ascii_of_N 178) ""))].

(** A [.json] file holding [superscript_doc]. *)
Definition superscript_file : file_in :=
  {| f_path := ["out"; "run4.json"]; f_sha256 := "4e07408562bedb8b";
     f_size := 15; f_text := ""; f_parsed := Some superscript_doc |}.

(** A file that is no candidate. *)
Definition log_file : file_in :=
  {| f_path := ["out"; "run.log"]; f_sha256 := "ef2d127de37b942b";
     f_size := 7; f_text := "started"; f_parsed := None |}.

(** The two records of [sample_manifest] and manifests made of them. *)
Definition dashboard_record : entry :=
  {| e_file := "notes/dashboard.md"; e_sha256 := "2c26b46b68ffc68f";
     e_size_bytes := 48; e_git_commit := "4f2a";
     e_evidence_group_id := "dashboard"; e_backend := None;
     e_timestamp := None; e_shots := None; e_job_ids := None |}.

Definition run2_record : entry :=
  {| e_file := "out/run2.json"; e_sha256 := "fcde2b2edba56bf4";
     e_size_bytes := 120; e_git_commit := "4f2a";
     e_evidence_group_id := "run2"; e_backend := None;
     e_timestamp := Some "2024"; e_shots := Some (PInt 500);
     e_job_ids := Some ["d0xy"; "c0a1b2c3d4e5f"] |}.

Definition manifest_of (sets : list entry) : manifest :=
  {| schema_version := 2; generated_utc := sample_time; git_commit := "4f2a";
     evidence_sets := sets |}.

(** [int(s)] is modelled without the interpreter's limit on the length
    of the strings it converts (4300 digits unless configured
    otherwise); statements about when [int] raises are made for
    documents whose strings at the shot-count locations stay within
    it. *)
Definition digit_limit : nat := 4300.

Definition short_shots (obj : json) : bool :=
  forallb
    (λ p, match deep_get obj p with
          | JStr s => (String.length s <=? digit_limit)%nat
          | _ => true
          end)
    shots_candidates.

(** The nesting depth of a value: the number of lists and mappings
    around its innermost value. *)
Fixpoint depth (v : json) : nat :=
  match v with
  | JList l => S (max_list (depth <$> l))
  | JDict d => S (max_list ((λ kv, depth kv.2) <$> d))
  | _ => 0
  end.

(** [walk_all_values] is a recursive generator that takes one frame for
    each level of nesting, and the interpreter raises [RecursionError]
    at about a thousand frames; the embedding has no such limit.
    Statements about when the program returns or raises are made for
    values nested no deeper than [nesting_limit], well inside the
    default limit. *)
Definition nesting_limit : nat := 900.

Definition shallow (v : json) : bool := (depth v <=? nesting_limit)%nat.

(** The line feeds in a string. *)
Fixpoint count_newlines (s : string) : nat :=
  match s with
  | "" => 0%nat
  | String c s' =>
      ((if Ascii.eqb c (ascii_of_N 10) then 1 else 0) + count_newlines s')%nat
  end.

(** A record whose digest and file name hold no line feed. *)
Definition one_line (e : entry) : bool :=
  (count_newlines (e_sha256 e) =? 0)%nat && (count_newlines (e_file e) =? 0)%nat.

(** The lines of the records, each closed by a line feed, one after the
    other. *)
Definition closed_lines (entries : list entry) : string :=
  foldr (λ e t, sha_line e +:+ Py.newline +:+ t) "" entries.

(** A [.json] file holding a list in a list. *)
Definition nested_list_file : file_in :=
  {| f_path := ["out"; "ids.json"]; f_sha256 := "6b86b273ff34fce1";
     f_size := 20; f_text := "";
     f_parsed := Some (JList [JList [JStr "d0a1b2c3d4e5"]]) |}.

(** * Properties *)

(** ** Characters and strings *)

Section strings.

Ltac by_cases c := destruct c as [[] [] [] [] [] [] [] []]; vm_compute; done.

Lemma lower_char_idem c : Py.lower_char (Py.lower_char c) = Py.lower_char c.
Proof. by_cases c. Qed.

Lemma class_folded c :
  Re.in_class c = true → Py.lower_char c = c → lower_alnum c = true.
Proof. revert c. intros [[] [] [] [] [] [] [] []]; vm_compute; congruence. Qed.

Lemma class_not_space c : Re.in_class c = true → Py.is_space c = false.
Proof. revert c. intros [[] [] [] [] [] [] [] []]; vm_compute; congruence. Qed.

Lemma lower_idem s : Py.lower (Py.lower s) = Py.lower s.
Proof. induction s as [|c s IH]; simpl; [done|]. by rewrite lower_char_idem, IH. Qed.

Lemma lower_app s t : Py.lower (s +:+ t) = Py.lower s +:+ Py.lower t.
Proof. induction s as [|c s IH]; simpl; [done|]. by rewrite IH. Qed.

Lemma all_chars_impl (P Q : ascii → bool) s :
  (∀ c, P c = true → Q c = true) →
  Py.all_chars P s = true → Py.all_chars Q s = true.
Proof.
  intros HPQ. induction s as [|c s IH]; simpl; [done|].
  rewrite !andb_true_iff. intros [Hc Hs]. split; [by apply HPQ|by apply IH].
Qed.

Lemma all_chars_and (P Q : ascii → bool) s :
  Py.all_chars P s = true → Py.all_chars Q s = true →
  Py.all_chars (λ c, P c && Q c) s = true.
Proof.
  induction s as [|c s IH]; simpl; [done|].
  rewrite !andb_true_iff. intros [Hc Hs] [Hc' Hs'].
  split; [by split|by apply IH].
Qed.

Lemma lower_folded s : Py.all_chars folded_char (Py.lower s) = true.
Proof.
  induction s as [|c s IH]; simpl; [done|].
  rewrite IH, andb_true_r. unfold folded_char.
  rewrite lower_char_idem. apply Ascii.eqb_refl.
Qed.

Lemma folded_lower s : Py.all_chars folded_char s = true → Py.lower s = s.
Proof.
  induction s as [|c s IH]; simpl; [done|].
  rewrite andb_true_iff. intros [Hc Hs].
  apply Ascii.eqb_eq in Hc. by rewrite Hc, IH.
Qed.

Lemma rstrip_id s :
  Py.all_chars (λ c, negb (Py.is_space c)) s = true → Py.rstrip s = s.
Proof.
  induction s as [|c s IH]; simpl; [done|].
  rewrite andb_true_iff, negb_true_iff. intros [Hc Hs].
  rewrite IH by done. destruct s; [by rewrite Hc|done].
Qed.

Lemma strip_id s :
  Py.all_chars (λ c, negb (Py.is_space c)) s = true → Py.strip s = s.
Proof.
  intros Hs. unfold Py.strip.
  assert (Py.lstrip s = s) as ->; [|by apply rstrip_id].
  destruct s as [|c s]; simpl in *; [done|].
  apply andb_true_iff in Hs as [Hc _]. apply negb_true_iff in Hc. by rewrite Hc.
Qed.

Lemma nonempty_ne s : Py.nonempty s = true ↔ s ≠ "".
Proof. by destruct s. Qed.

Lemma endswith_app s t : Py.endswith (s +:+ t) t = true.
Proof.
  induction s as [|c s IH].
  - change ("" +:+ t) with t. destruct t; simpl; [done|].
    by rewrite Ascii.eqb_refl, String.eqb_refl.
  - change (String c s +:+ t) with (String c (s +:+ t)).
    cbn [Py.endswith]. by case_match.
Qed.

End strings.

(** ** The token pattern *)

Section tokens.

Lemma stop_shape k prev s t :
  (if (Re.min_rep <=? k)%nat && Re.boundary prev s then Some "" else None) = Some t →
  t = "" ∧ (Re.min_rep ≤ k)%nat.
Proof.
  destruct (Re.min_rep <=? k)%nat eqn:Hk; [|done].
  destruct (Re.boundary prev s); [|done].
  apply Nat.leb_le in Hk. intros [= <-]. done.
Qed.

Lemma rep_shape more k prev s t :
  Re.rep more k prev s = Some t →
  (Re.min_rep ≤ k + String.length t ≤ k + more)%nat
  ∧ Py.all_chars Re.in_class t = true
  ∧ ∃ r, s = t +:+ r.
Proof.
  assert (∀ more k prev s t,
    (if (Re.min_rep <=? k)%nat && Re.boundary prev s then Some "" else None) = Some t →
    (Re.min_rep ≤ k + String.length t ≤ k + more)%nat
    ∧ Py.all_chars Re.in_class t = true ∧ ∃ r, s = t +:+ r) as Hstop.
  { intros ????? [-> ?]%stop_shape.
    split_and!; [simpl; lia|simpl; lia|done|by exists s0]. }
  revert k prev s t. induction more as [|more IH]; intros k prev s t.
  - cbn [Re.rep]. destruct s; apply Hstop.
  - cbn [Re.rep]. destruct s as [|c s]; [apply Hstop|].
    destruct (Re.in_class c) eqn:Hc; [|apply Hstop].
    destruct (Re.rep more (S k) (Some c) s) as [t'|] eqn:Hrec; [|apply Hstop].
    intros [= <-]. apply IH in Hrec as ([Hlo Hhi] & Hall & r & ->).
    split_and!; [simpl; lia|simpl; lia|by simpl; rewrite Hc|by exists r].
Qed.

Lemma all_chars_app (P : ascii → bool) s t :
  Py.all_chars P (s +:+ t) = Py.all_chars P s && Py.all_chars P t.
Proof. induction s as [|c s IH]; simpl; [done|]. by rewrite IH, andb_assoc. Qed.

Lemma all_chars_tail (P : ascii → bool) c s :
  Py.all_chars P (String c s) = true → Py.all_chars P s = true.
Proof. simpl. by intros [_ ?]%andb_true_iff. Qed.

(** Every token [findall] returns has 10 to 40 characters of the class,
    and its characters are characters of the subject. *)
Lemma findall_from_shape (P : ascii → bool) skip prev s t :
  Py.all_chars P s = true →
  t ∈ Re.findall_from skip prev s →
  (10 ≤ String.length t ≤ 40)%nat
  ∧ Py.all_chars Re.in_class t = true
  ∧ Py.all_chars P t = true.
Proof.
  revert skip prev. induction s as [|c s IH]; intros skip prev HP; simpl.
  { by intros ?%elem_of_nil. }
  destruct skip as [|skip].
  - destruct (Re.match_here prev (String c s)) as [t'|] eqn:Hm.
    + intros [->|Hin]%elem_of_cons; [|by eapply IH, Hin; eapply all_chars_tail].
      unfold Re.match_here in Hm. case_match; [|done].
      apply rep_shape in Hm as (Hlen & Hall & r & Hr).
      unfold Re.min_rep, Re.max_rep in Hlen.
      split_and!; [lia|lia|done|].
      rewrite Hr, all_chars_app in HP. by apply andb_true_iff in HP as [? _].
    + intros Hin. by eapply IH, Hin; eapply all_chars_tail.
  - intros Hin. by eapply IH, Hin; eapply all_chars_tail.
Qed.

Lemma all_chars_true s : Py.all_chars (λ _, true) s = true.
Proof. induction s; simpl; auto. Qed.

End tokens.

(** ** Ordered de-duplication *)

Section ordered_dedup.

Lemma keep_new_synced st x : synced st → synced (keep_new st x).
Proof.
  unfold synced, keep_new. intros Hst y. case_decide; [done|]. simpl.
  rewrite elem_of_union, elem_of_singleton, elem_of_app, list_elem_of_singleton.
  rewrite Hst. tauto.
Qed.

Lemma keep_new_elem st x y :
  synced st → y ∈ (keep_new st x).2 ↔ y ∈ st.2 ∨ y = x.
Proof.
  unfold synced, keep_new. intros Hst. case_decide as Hx; simpl.
  - apply Hst in Hx. split; [tauto|]. by intros [?| ->].
  - by rewrite elem_of_app, list_elem_of_singleton.
Qed.

Context (step : gset string * list string → string → gset string * list string).
Context (norm : string → option string).
Context (Hstep : ∀ st x,
  step st x = match norm x with Some y => keep_new st y | None => st end).

Lemma dedup_fold st l y :
  synced st →
  y ∈ (foldl step st l).2 ↔ y ∈ st.2 ∨ ∃ x, x ∈ l ∧ norm x = Some y.
Proof.
  revert st. induction l as [|x l IH]; intros st Hst; simpl.
  { split; [tauto|]. intros [?|(x & []%elem_of_nil & _)]; done. }
  rewrite IH; last first.
  { rewrite Hstep. destruct (norm x); [by apply keep_new_synced|done]. }
  rewrite Hstep. destruct (norm x) as [z|] eqn:Hx.
  - rewrite keep_new_elem by done. split.
    + intros [[?| ->]|(x' & ? & ?)]; [by left|right..].
      * exists x. split; [left|done].
      * exists x'. split; [by right|done].
    + intros [?|(x' & [->|?]%elem_of_cons & Hx')]; [by left; left| |].
      * left; right. congruence.
      * right. by exists x'.
  - split.
    + intros [?|(x' & ? & ?)]; [by left|right].
      exists x'. split; [by right|done].
    + intros [?|(x' & [->|?]%elem_of_cons & Hx')]; [by left|congruence|].
      right. by exists x'.
Qed.

End ordered_dedup.

Lemma synced_empty : synced (∅, []).
Proof. intros y. simpl. rewrite elem_of_nil. set_solver. Qed.

(** ** The job-identifier recogniser *)

Section recogniser.

Lemma keep_new_fold l y : y ∈ (foldl keep_new (∅, []) l).2 ↔ y ∈ l.
Proof.
  rewrite (dedup_fold keep_new Some) by (done || apply synced_empty).
  simpl. rewrite elem_of_nil. split.
  - by intros [[]|(x & ? & [= ->])].
  - intros ?. right. by exists y.
Qed.

Lemma normalize_fold l y :
  y ∈ normalize_ids l ↔ ∃ x, x ∈ l ∧ normalize x = Some y.
Proof.
  unfold normalize_ids.
  rewrite (dedup_fold normalize_step normalize); [|..|apply synced_empty].
  - simpl. rewrite elem_of_nil. tauto.
  - intros st x. unfold normalize_step, normalize.
    by repeat case_match.
Qed.

(** What the text scan returns: tokens of 12 to 40 characters out of
    [a-z0-9] that begin with a recognised prefix. *)
Lemma text_ids_shape text x :
  x ∈ extract_job_ids_from_text text →
  token_shape x = true
  ∧ Py.all_chars lower_alnum x = true
  ∧ normalize x = Some x.
Proof.
  unfold extract_job_ids_from_text. rewrite keep_new_fold.
  intros [[Hpre Hlen] Hin]%list_elem_of_filter.
  apply (findall_from_shape folded_char) in Hin as ([Hlo Hhi] & Hcls & Hfold);
    [|apply lower_folded].
  assert (Py.lower x = x) as Hlow by by apply folded_lower.
  assert (Py.strip x = x) as Hstrip.
  { apply strip_id. eapply all_chars_impl, Hcls.
    intros c Hc. by rewrite class_not_space. }
  split_and!.
  - unfold token_shape. rewrite Hlow, Hpre, Hcls.
    repeat (apply andb_true_iff; split); try done; apply Nat.leb_le; lia.
  - eapply all_chars_impl, (all_chars_and _ _ _ Hcls Hfold).
    intros c [Hc Hf]%andb_true_iff. apply class_folded; [done|].
    by apply Ascii.eqb_eq.
  - unfold normalize. rewrite Hstrip, Hlow, Hpre.
    destruct x; [simpl in Hlo; lia|done].
Qed.

End recogniser.

(** ** Origins of the identifiers *)

Lemma job_ids_origin D x :
  x ∈ extract_job_ids D →
  x ∈ extract_job_ids_from_text (all_text D)
  ∨ ∃ v, v ∈ structured_candidates D ∧ normalize v = Some x.
Proof.
  unfold extract_job_ids. rewrite normalize_fold.
  intros (raw & Hraw & Hnorm).
  rewrite (assoc_L (++)) in Hraw. apply elem_of_app in Hraw as [Hs|Ht].
  - right. by exists raw.
  - left. pose proof (text_ids_shape _ _ Ht) as (? & ? & Hn).
    rewrite Hn in Hnorm. by injection Hnorm as <-.
Qed.

Lemma normalize_Some v x :
  normalize v = Some x →
  x = Py.lower (Py.strip v) ∧ x ≠ ""
  ∧ Py.startswith_any x LIKELY_JOB_PREFIX = true.
Proof.
  unfold normalize.
  destruct (Py.nonempty (Py.strip v)) eqn:Hs; [|done].
  destruct (Py.startswith_any _ _) eqn:Hp; [|done].
  intros [= <-]. split_and!; [done| |done].
  by destruct (Py.strip v).
Qed.

(** ** Documents wrapped under [_root] *)

Section wrapped.

Context (v : json).

Lemma wrapped_shots : extract_shots (JDict [("_root", v)]) = Py.Ok None.
Proof. reflexivity. Qed.






End wrapped.

Lemma first_some_Some {A B} (f : A → option B) l y :
  first_some f l = Some y → ∃ x, x ∈ l ∧ f x = Some y.
Proof.
  induction l as [|x l IH]; simpl; [done|].
  destruct (f x) eqn:Hx.
  - intros [= ->]. exists x. split; [left|done].
  - intros (x' & ? & ?)%IH. exists x'. split; [by right|done].
Qed.


Lemma if_list_Some {A} (l ids : list A) : if_list l = Some ids → ids = l.
Proof. destruct l; simpl; congruence. Qed.

(** ** The order of the candidates *)

Section path_order.

Lemma leb_le s t : String.leb s t = true ↔ String.le s t.
Proof. unfold String.le. by rewrite Is_true_true. Qed.

Lemma parts_le_total p q :
  PathLib.parts_le p q = true ∨ PathLib.parts_le q p = true.
Proof.
  revert q. induction p as [|x p IH]; intros [|y q]; simpl; auto.
  rewrite (String.eqb_sym y x). destruct (String.eqb x y); [apply IH|].
  rewrite !leb_le. apply String.le_total.
Qed.

Lemma parts_le_antisym p q :
  PathLib.parts_le p q = true → PathLib.parts_le q p = true → p = q.
Proof.
  revert q. induction p as [|x p IH]; intros [|y q]; simpl; try done.
  rewrite (String.eqb_sym y x). destruct (String.eqb_spec x y) as [->|Hne].
  - intros ??. f_equal. by apply IH.
  - rewrite !leb_le. intros Hxy Hyx. destruct Hne.
    by apply (anti_symm String.le).
Qed.

Lemma parts_le_trans p q r :
  PathLib.parts_le p q = true → PathLib.parts_le q r = true →
  PathLib.parts_le p r = true.
Proof.
  revert q r. induction p as [|x p IH]; intros [|y q] [|z r]; simpl; try done.
  destruct (String.eqb_spec x y) as [->|Hxy].
  { destruct (String.eqb_spec y z); [apply IH|done]. }
  destruct (String.eqb_spec y z) as [->|Hyz].
  { intros ? _. by destruct (String.eqb_spec x z). }
  rewrite !leb_le. intros Hle1 Hle2.
  destruct (String.eqb_spec x z) as [->|Hxz].
  - destruct Hxy. by apply (anti_symm String.le).
  - apply leb_le. by etrans.
Qed.

#[local] Instance file_le_total : Total file_le.
Proof. intros f g. apply parts_le_total. Qed.

#[local] Instance file_le_trans : Transitive file_le.
Proof. intros f g h. apply parts_le_trans. Qed.

Lemma same_key {A B} (key : A → B) (l : list A) x y :
  NoDup (key <$> l) → x ∈ l → y ∈ l → key x = key y → x = y.
Proof.
  induction l as [|a l IH]; simpl; [by intros _ ?%elem_of_nil|].
  rewrite NoDup_cons. intros [Ha Hl] Hx Hy Hk.
  apply elem_of_cons in Hx as [->|Hx]; apply elem_of_cons in Hy as [->|Hy].
  - done.
  - destruct Ha. rewrite Hk. by apply list_elem_of_fmap_2.
  - destruct Ha. rewrite <-Hk. by apply list_elem_of_fmap_2.
  - by apply IH.
Qed.

Lemma candidates_elem files f :
  f ∈ candidates files ↔ f ∈ files ∧ is_candidate f = true.
Proof.
  unfold candidates. rewrite merge_sort_Permutation, list_elem_of_filter. tauto.
Qed.

(** The candidate list depends on the set of files only, not on the
    order in which they were enumerated. *)
Lemma candidates_perm files1 files2 :
  NoDup (f_path <$> files1) → files1 ≡ₚ files2 →
  candidates files1 = candidates files2.
Proof.
  intros Hnd Hperm. apply (Sorted_unique_strong file_le).
  - intros f g [Hf _]%candidates_elem [Hg _]%candidates_elem Hfg Hgf.
    rewrite <-Hperm in Hg.
    apply (same_key f_path files1); [done..|]. by apply parts_le_antisym.
  - apply (Sorted_merge_sort file_le).
  - apply (Sorted_merge_sort file_le).
  - unfold candidates. by rewrite !merge_sort_Permutation, Hperm.
Qed.

End path_order.

(** ** The scan of the consistency checker *)

Section checker.

Context (read_text : string → string).

Lemma scan_entries_from st sets :
  (∀ y, y ∈ (foldl (scan_entry read_text) st sets).1 ↔
     y ∈ st.1 ∨ ∃ e ids, e ∈ sets ∧ is_json (e_file e) = true
                 ∧ e_job_ids e = Some ids ∧ y ∈ Py.lower <$> ids)
  ∧ (∀ x, x ∈ (foldl (scan_entry read_text) st sets).2 ↔
     x ∈ st.2 ∨ narrative_id read_text sets x).
Proof.
  revert st. induction sets as [|e sets IH]; intros st.
  { simpl. split; intros z; (split; [by left|]).
    - by intros [?|(? & ? & []%elem_of_nil & _)].
    - by intros [?|(? & []%elem_of_nil & _)]. }
  cbn [foldl]. destruct (IH (scan_entry read_text st e)) as [IH1 IH2].
  split.
  - intros y. rewrite IH1. unfold scan_entry at 1. cbn [fst]. split.
    + intros [Hy|(e' & ids & ? & ? & ? & ?)].
      * destruct (e_job_ids e) as [ids|] eqn:Hids; [|by left].
        destruct (is_json (e_file e)) eqn:Hj; [|by left].
        apply elem_of_union in Hy as [?|Hy]; [by left|right].
        exists e, ids. split_and!; [left|done|done|].
        by apply elem_of_list_to_set in Hy.
      * right. exists e', ids. split_and!; [by right|done..].
    + intros [Hy|(e' & ids & [->|?]%elem_of_cons & Hj & Hids & Hy)].
      * left. destruct (e_job_ids e); [|done].
        destruct (is_json (e_file e)); [|done]. apply elem_of_union. by left.
      * left. rewrite Hids, Hj. apply elem_of_union. right.
        by apply elem_of_list_to_set.
      * right. by exists e', ids.
  - intros x. rewrite IH2. unfold scan_entry at 1, narrative_id. cbn [snd]. split.
    + intros [Hx|(e' & ? & ? & ? & ?)].
      * destruct (is_md (e_file e)) eqn:Hmd; [|by left].
        destruct (Py.contains _ _) eqn:Hc; [|by left].
        apply elem_of_union in Hx as [?|Hx]; [by left|right].
        exists e. split_and!; [left|done|done|].
        by apply elem_of_list_to_set in Hx.
      * right. exists e'. split_and!; [by right|done..].
    + intros [Hx|(e' & [->|?]%elem_of_cons & Hmd & Hc & Hx)].
      * left. destruct (is_md (e_file e)); [|done].
        destruct (Py.contains _ _); [|done]. apply elem_of_union. by left.
      * left. rewrite Hmd, Hc. apply elem_of_union. right.
        by apply elem_of_list_to_set.
      * right. by exists e'.
Qed.

Lemma scan_entries_json sets y :
  y ∈ (scan_entries read_text sets).1 ↔
  ∃ e ids, e ∈ sets ∧ is_json (e_file e) = true
    ∧ e_job_ids e = Some ids ∧ y ∈ Py.lower <$> ids.
Proof.
  unfold scan_entries. rewrite (proj1 (scan_entries_from _ _)). simpl.
  split; [|by right]. by intros [?%not_elem_of_empty|?].
Qed.

Lemma scan_entries_dashboard sets x :
  x ∈ (scan_entries read_text sets).2 ↔ narrative_id read_text sets x.
Proof.
  unfold scan_entries. rewrite (proj2 (scan_entries_from _ _)). simpl.
  split; [|by right]. by intros [?%not_elem_of_empty|?].
Qed.

Lemma text_ids_lower text x :
  x ∈ extract_job_ids_from_text text → Py.lower x = x.
Proof.
  intros (_ & _ & (Hx & _)%normalize_Some)%text_ids_shape.
  rewrite Hx at 1. by rewrite lower_idem.
Qed.

Lemma folded_ids_elem sets e ids :
  folded_ids sets = true → e ∈ sets → e_job_ids e = Some ids →
  Py.lower <$> ids = ids.
Proof.
  unfold folded_ids. rewrite forallb_forall.
  intros Hall He%list_elem_of_In Hids. specialize (Hall e He).
  rewrite Hids in Hall. clear -Hall.
  induction ids as [|y ids IH]; [done|].
  cbn [forallb] in Hall. apply andb_true_iff in Hall as [Hy Hall].
  rewrite fmap_cons. f_equal; [by apply String.eqb_eq|by apply IH].
Qed.

Lemma missing_in_json_elem m x :
  x ∈ missing_in_json (write_warnings_md read_text m) ↔
  x ∈ (scan_entries read_text (evidence_sets m)).2
  ∧ Py.lower x ∉ (scan_entries read_text (evidence_sets m)).1.
Proof.
  unfold write_warnings_md. cbn [missing_in_json].
  rewrite merge_sort_Permutation, list_elem_of_filter, elem_of_elements. tauto.
Qed.

Lemma missing_in_json_NoDup m :
  NoDup (missing_in_json (write_warnings_md read_text m)).
Proof.
  unfold write_warnings_md. cbn [missing_in_json].
  rewrite merge_sort_Permutation. apply NoDup_filter, NoDup_elements.
Qed.

Lemma missing_field_elem {A} (field : entry → option A) sets f :
  f ∈ missing_field field sets ↔
  ∃ e, e ∈ sets ∧ e_file e = f ∧ is_json f = true ∧ field e = None.
Proof.
  unfold missing_field. rewrite list_elem_of_fmap. split.
  - intros (e & -> & [[? ?] ?]%list_elem_of_filter). by exists e.
  - intros (e & ? & <- & ? & ?). exists e. split; [done|].
    by apply list_elem_of_filter.
Qed.

End checker.

(** ** Records of an assembled manifest *)

Section assembled.

Lemma job_ids_lower D x : x ∈ extract_job_ids D → Py.lower x = x.
Proof.
  unfold extract_job_ids. rewrite normalize_fold.
  intros (raw & _ & (Hx & _)%normalize_Some).
  rewrite Hx at 1. by rewrite lower_idem.
Qed.

(** The optional fields of a record are those the extractors found. *)
Lemma build_entry_Ok f obj commit e :
  build_entry f obj commit = Py.Ok e →
  e_file e = PathLib.to_str (f_path f)
  ∧ ((∃ d, obj = Some d ∧ d ≠ []
        ∧ e_evidence_group_id e
          = detect_evidence_group_id (JDict d) (PathLib.stem (f_path f))
        ∧ e_backend e = if_str (extract_backend (JDict d))
        ∧ e_timestamp e = if_str (extract_timestamp (JDict d))
        ∧ extract_shots (JDict d) = Py.Ok (e_shots e)
        ∧ e_job_ids e = if_list (extract_job_ids (JDict d)))
     ∨ ((obj = None ∨ obj = Some [])
        ∧ e_evidence_group_id e = PathLib.stem (f_path f)
        ∧ e_backend e = None ∧ e_timestamp e = None
        ∧ e_shots e = None ∧ e_job_ids e = None)).
Proof.
  unfold build_entry. destruct obj as [[|kv d]|].
  - intros [= <-]. split; [done|]. right. split_and!; auto.
  - destruct (extract_shots _) as [shots|] eqn:Hs; [|done].
    intros [= <-]. split; [done|]. left. exists (kv :: d). split_and!; done.
  - intros [= <-]. split; [done|]. right. split_and!; auto.
Qed.

Lemma collect_entries_elem cands commit es e :
  collect_entries cands commit = Py.Ok es → e ∈ es →
  ∃ f, f ∈ cands ∧ build_entry f (load_obj f) commit = Py.Ok e.
Proof.
  revert es. induction cands as [|f cands IH]; intros es; cbn [collect_entries].
  { intros [= <-]. by intros ?%elem_of_nil. }
  destruct (build_entry f (load_obj f) commit) as [e0|] eqn:He0; [|done].
  destruct (collect_entries cands commit) as [es0|] eqn:Hes0; [|done].
  intros [= <-] [->|Hin]%elem_of_cons.
  - exists f. split; [left|done].
  - destruct (IH es0 eq_refl Hin) as (f' & ? & ?).
    exists f'. split; [by right|done].
Qed.

Lemma assemble_elem files commit generated m e :
  assemble files commit generated = Py.Ok m → e ∈ evidence_sets m →
  ∃ f, f ∈ files ∧ is_candidate f = true
    ∧ build_entry f (load_obj f) commit = Py.Ok e.
Proof.
  unfold assemble.
  destruct (collect_entries _ _) as [es|] eqn:Hes; [|done].
  intros [= <-] He. cbn [evidence_sets] in He.
  destruct (collect_entries_elem _ _ _ _ Hes He) as (f & [? ?]%candidates_elem & ?).
  by exists f.
Qed.

(** Every assembled manifest holds its job identifiers case-folded. *)
Lemma assemble_folded files commit generated m :
  assemble files commit generated = Py.Ok m →
  folded_ids (evidence_sets m) = true.
Proof.
  intros Hm. unfold folded_ids. apply forallb_forall.
  intros e He%list_elem_of_In.
  destruct (assemble_elem _ _ _ _ _ Hm He) as (f & _ & _ & Hf).
  apply build_entry_Ok in Hf as [_ [(d & _ & _ & _ & _ & _ & _ & Hj)|(_ & _ & _ & _ & _ & Hj)]];
    rewrite Hj; [|done].
  destruct (if_list _) as [ids|] eqn:Hids; [|done].
  apply if_list_Some in Hids as ->. apply forallb_forall.
  intros y Hy%list_elem_of_In. apply String.eqb_eq. by eapply job_ids_lower.
Qed.

End assembled.

(** ** File names *)

Section file_names.

Lemma app_assoc_s (s t u : string) : (s +:+ t) +:+ u = s +:+ (t +:+ u).
Proof.
  induction s as [|c s IH]; [done|].
  change (String c ((s +:+ t) +:+ u) = String c (s +:+ (t +:+ u))). by rewrite IH.
Qed.

Lemma app_nil_r_s (s : string) : s +:+ "" = s.
Proof.
  induction s as [|c s IH]; [done|].
  change (String c (s +:+ "") = String c s). by rewrite IH.
Qed.

Lemma rsplit_dot_app s a b : PathLib.rsplit_dot s = Some (a, b) → s = a +:+ b.
Proof.
  revert a b. induction s as [|c s IH]; intros a b; cbn [PathLib.rsplit_dot]; [done|].
  destruct (PathLib.rsplit_dot s) as [[a' b']|].
  - intros [= <- <-]. by rewrite (IH a' b').
  - destruct (Ascii.eqb c "."); [|done]. by intros [= <- <-].
Qed.

Lemma name_suffix p : ∃ a, PathLib.name p = a +:+ PathLib.suffix p.
Proof.
  unfold PathLib.suffix.
  destruct (PathLib.rsplit_dot (PathLib.name p)) as [[a b]|] eqn:Hsplit.
  - destruct (PathLib.splits_name (a, b)).
    + exists a. by apply rsplit_dot_app.
    + exists (PathLib.name p). by rewrite app_nil_r_s.
  - exists (PathLib.name p). by rewrite app_nil_r_s.
Qed.

Lemma to_str_name p : p ≠ [] → ∃ pre, PathLib.to_str p = pre +:+ PathLib.name p.
Proof.
  induction p as [|x p IH]; [done|]. intros _.
  destruct p as [|y p].
  - by exists "".
  - destruct IH as [pre Hpre]; [done|].
    exists (x +:+ "/" +:+ pre).
    change (PathLib.to_str (x :: y :: p)) with (x +:+ "/" +:+ PathLib.to_str (y :: p)).
    change (PathLib.name (x :: y :: p)) with (PathLib.name (y :: p)).
    by rewrite Hpre, !app_assoc_s.
Qed.

(** A file that [main] parses as [.json] is one the checker takes for
    structured. *)
Lemma json_suffix_is_json f :
  suffix_lower f = ".json" → is_json (PathLib.to_str (f_path f)) = true.
Proof.
  unfold suffix_lower, is_json. intros Hsuf.
  destruct (f_path f) as [|x p] eqn:Hp; [done|].
  destruct (to_str_name (x :: p)) as [pre ->]; [done|].
  destruct (name_suffix (x :: p)) as [a ->].
  by rewrite <-app_assoc_s, lower_app, Hsuf, endswith_app.
Qed.

Lemma md_suffix_unparsed f : suffix_lower f = ".md" → load_obj f = None.
Proof. unfold load_obj. by intros ->. Qed.

End file_names.

(** ** Loops with an early return *)

Section early_return.

Context {A B : Type} (f : A → option B).

Lemma first_some_lookup l y :
  first_some f l = Some y ↔
  ∃ i x, l !! i = Some x ∧ f x = Some y
    ∧ ∀ j x', (j < i)%nat → l !! j = Some x' → f x' = None.
Proof.
  induction l as [|a l IH]; cbn [first_some].
  { split; [done|]. by intros (i & x & ? & _). }
  destruct (f a) as [b|] eqn:Ha.
  - split.
    + intros [= ->]. exists 0%nat, a. split_and!; [done..|]. intros j x' ?. lia.
    + intros ([|i] & x & Hx & Hy & Hbefore).
      * simpl in Hx. congruence.
      * specialize (Hbefore 0%nat a). rewrite Hbefore in Ha; [done|lia|done].
  - rewrite IH. split.
    + intros (i & x & Hx & Hy & Hbefore). exists (S i), x.
      split_and!; [done..|]. intros [|j] x' Hj Hx'.
      * simpl in Hx'. congruence.
      * apply (Hbefore j); [lia|done].
    + intros ([|i] & x & Hx & Hy & Hbefore).
      * simpl in Hx. congruence.
      * exists i, x. split_and!; [done..|]. intros j x' Hj Hx'.
        apply (Hbefore (S j)); [lia|done].
Qed.

Lemma first_some_app l1 l2 :
  first_some f (l1 ++ l2) =
  match first_some f l1 with Some y => Some y | None => first_some f l2 end.
Proof.
  induction l1 as [|a l1 IH]; cbn [first_some app]; [done|].
  by destruct (f a).
Qed.

End early_return.

Lemma stripped_str_Some v t :
  stripped_str v = Some t ↔ ∃ s, v = JStr s ∧ t = Py.strip s ∧ t ≠ "".
Proof.
  destruct v; simpl; try (split; [done|intros (? & ? & _); done]).
  destruct (Py.nonempty (Py.strip s)) eqn:Hs.
  - split.
    + intros [= <-]. exists s. split_and!; [done..|]. by apply nonempty_ne.
    + by intros (s' & [= <-] & -> & _).
  - split; [done|]. intros (s' & [= <-] & -> & Hne).
    apply nonempty_ne in Hne. congruence.
Qed.

Lemma stripped_str_None v :
  stripped_str v = None ↔ ∀ s, v = JStr s → Py.strip s = "".
Proof.
  destruct v; simpl; try (split; [by intros _ s' [=]|done]).
  destruct (Py.strip s) eqn:Hs; simpl.
  - split; [|done]. intros _ s' Heq. by simplify_eq.
  - split; [done|]. intros H. specialize (H s eq_refl). congruence.
Qed.

Lemma extract_timestamp_locations obj :
  extract_timestamp obj
  = first_some (λ p, stripped_str (deep_get obj p)) timestamp_locations.
Proof.
  unfold timestamp_locations. rewrite first_some_app.
  unfold extract_timestamp. by destruct obj.
Qed.

Lemma positive_int_pos v n : positive_int v = Some n → 0 < int_value n.
Proof.
  destruct v; simpl; try done.
  - destruct b; [|done]. by intros [= <-].
  - destruct (0 <? n0) eqn:Hn; [|done]. intros [= <-]. simpl. lia.
Qed.

(** A structured record without any of the four fields is in all four
    missing-field lists. *)
Lemma bare_entry_reported read_text m e :
  e ∈ evidence_sets m → is_json (e_file e) = true →
  e_backend e = None → e_shots e = None →
  e_timestamp e = None → e_job_ids e = None →
  e_file e ∈ missing_backend (write_warnings_md read_text m)
  ∧ e_file e ∈ missing_shots (write_warnings_md read_text m)
  ∧ e_file e ∈ missing_timestamp (write_warnings_md read_text m)
  ∧ e_file e ∈ missing_job_ids (write_warnings_md read_text m).
Proof.
  intros. unfold write_warnings_md.
  cbn [missing_backend missing_shots missing_timestamp missing_job_ids].
  split_and!; apply missing_field_elem; by exists e.
Qed.

(** * The properties of the specification *)

(** ** C1: what [extract_job_ids] returns *)

(** C1, as stated, fails: the document [{"job_id": "d0"}] yields the
    identifier [d0], which is two characters long. *)
Lemma extract_job_ids_short_structured_id :
  extract_job_ids (JDict [("job_id", JStr "d0")]) = ["d0"]
  ∧ token_shape "d0" = false.
Proof. split; vm_compute; reflexivity. Qed.

(** C1, amended: every identifier [extract_job_ids] returns is non-empty
    and begins with a recognised prefix; it is either a hit of the text
    scan, and then a token of 12 to 40 letters and digits (characters
    of the pattern's class), or the stripped and case-folded form of a
    string found by the structured lookups, which the closing loop
    tests for the prefix only. *)
Theorem extract_job_ids_accepts (D : json) (x : string) :
  x ∈ extract_job_ids D →
  x ≠ ""
  ∧ Py.startswith_any x LIKELY_JOB_PREFIX = true
  ∧ ((x ∈ extract_job_ids_from_text (all_text D) ∧ token_shape x = true)
     ∨ (∃ v, v ∈ structured_candidates D ∧ x = Py.lower (Py.strip v))).
Proof.
  unfold extract_job_ids. rewrite normalize_fold.
  intros (raw & Hraw & Hnorm).
  assert (x ≠ "" ∧ Py.startswith_any x LIKELY_JOB_PREFIX = true
          ∧ x = Py.lower (Py.strip raw)) as (Hne & Hpre & Hx).
  { unfold normalize in Hnorm.
    destruct (Py.nonempty (Py.strip raw)) eqn:Hs; [|done].
    destruct (Py.startswith_any _ _) eqn:Hp; [|done].
    injection Hnorm as <-. split_and!; [|done..].
    by destruct (Py.strip raw). }
  split_and!; [done..|].
  rewrite (assoc_L (++)) in Hraw. apply elem_of_app in Hraw as [Hs|Ht].
  - right. by exists raw.
  - left. pose proof (text_ids_shape _ _ Ht) as (? & ? & Hn).
    rewrite Hn in Hnorm. by injection Hnorm as <-.
Qed.

Lemma extract_job_ids_accepts_witness :
  "c0a1b2c3d4e5f" ∈ extract_job_ids sample_doc
  ∧ "c0a1b2c3d4e5f" ≠ ""
  ∧ Py.startswith_any "c0a1b2c3d4e5f" LIKELY_JOB_PREFIX = true
  ∧ (("c0a1b2c3d4e5f" ∈ extract_job_ids_from_text (all_text sample_doc)
      ∧ token_shape "c0a1b2c3d4e5f" = true)
     ∨ (∃ v, v ∈ structured_candidates sample_doc
             ∧ "c0a1b2c3d4e5f" = Py.lower (Py.strip v))).
Proof.
  assert ("c0a1b2c3d4e5f" ∈ extract_job_ids sample_doc) as H.
  { vm_compute. right. left. }
  split; [exact H|]. exact (extract_job_ids_accepts sample_doc _ H).
Defined.

(** ** C2: files that do not parse, and values that are no mapping *)




(** ** C3: the manifest text is determined by the inputs *)

(** C3: for a fixed set of files (path, digest, size, parsed document),
    a fixed revision and a fixed generation timestamp, the text written
    to [manifest.json] is the same whatever the order in which the
    files were enumerated. *)
Theorem manifest_text_deterministic
    (files1 files2 : list file_in) (commit generated : string) :
  NoDup (f_path <$> files1) →
  files1 ≡ₚ files2 →
  fst <$> main files1 commit generated = fst <$> main files2 commit generated.
Proof.
  intros Hnd Hperm. unfold main, assemble.
  rewrite (candidates_perm files1 files2) by done.
  by destruct (collect_entries _ _).
Qed.

Lemma manifest_text_deterministic_witness :
  NoDup (f_path <$> [sample_file; dashboard_file; broken_file])
  ∧ [sample_file; dashboard_file; broken_file]
      ≡ₚ [broken_file; sample_file; dashboard_file]
  ∧ fst <$> main [sample_file; dashboard_file; broken_file] "4f2a" sample_time
    = fst <$> main [broken_file; sample_file; dashboard_file] "4f2a" sample_time.
Proof.
  assert (NoDup (f_path <$> [sample_file; dashboard_file; broken_file])) as Hnd.
  { compute_done. }
  assert ([sample_file; dashboard_file; broken_file]
            ≡ₚ [broken_file; sample_file; dashboard_file]) as Hperm.
  { etrans; [apply Permutation_skip, Permutation_swap|apply Permutation_swap]. }
  split_and!; [exact Hnd|exact Hperm|].
  exact (manifest_text_deterministic _ _ "4f2a" _ Hnd Hperm).
Defined.

(** ** C4: the mismatch list *)

(** C4: for a manifest whose records hold their job identifiers
    case-folded, as every manifest [main] assembles does, the mismatch
    list holds exactly the identifiers of the narrative documents that
    are in no structured record's job-identifier list, each once and in
    sorted order. In particular, for a narrative document with the
    marker word and the identifier [d0a1b2c3d4e5] and one structured
    record without job identifiers, the mismatch list is
    [d0a1b2c3d4e5] alone. *)
Theorem missing_in_json_difference :
  (∀ (read_text : string → string) (m : manifest),
     folded_ids (evidence_sets m) = true →
     (∀ x, x ∈ missing_in_json (write_warnings_md read_text m) ↔
           narrative_id read_text (evidence_sets m) x
           ∧ ¬ structured_id (evidence_sets m) x)
     ∧ NoDup (missing_in_json (write_warnings_md read_text m))
     ∧ Sorted String.le (missing_in_json (write_warnings_md read_text m)))
  ∧ (∀ (files : list file_in) (commit generated : string) (m : manifest),
       assemble files commit generated = Py.Ok m →
       folded_ids (evidence_sets m) = true)
  ∧ e_job_ids <$> build_entry plain_file (load_obj plain_file) "4f2a" = Py.Ok None
  ∧ missing_in_json ∘ snd <$> main [dashboard_file; plain_file] "4f2a" sample_time
    = Py.Ok ["d0a1b2c3d4e5"].
Proof.
  split; [|split; [apply assemble_folded|split; vm_compute; reflexivity]].
  intros read_text m Hfold. split_and!.
  - intros x. rewrite missing_in_json_elem, scan_entries_dashboard.
    split.
    + intros [Hn Hs]. split; [done|].
      intros (e & ids & He & Hj & Hids & Hx). apply Hs.
      apply scan_entries_json. exists e, ids. split_and!; [done..|].
      destruct Hn as (e' & _ & _ & _ & ->%text_ids_lower).
      by rewrite (folded_ids_elem _ _ _ Hfold He Hids).
    + intros [Hn Hs]. split; [done|].
      intros (e & ids & He & Hj & Hids & Hx)%scan_entries_json. apply Hs.
      exists e, ids. split_and!; [done..|].
      destruct Hn as (e' & _ & _ & _ & Hlow%text_ids_lower).
      by rewrite (folded_ids_elem _ _ _ Hfold He Hids), Hlow in Hx.
  - apply missing_in_json_NoDup.
  - unfold write_warnings_md. cbn [missing_in_json].
    apply (Sorted_merge_sort String.le).
Qed.

Lemma missing_in_json_difference_witness :
  folded_ids (evidence_sets sample_manifest) = true
  ∧ ("d0a1b2c3d4e5" ∈ missing_in_json (write_warnings_md sample_text sample_manifest)
     ↔ narrative_id sample_text (evidence_sets sample_manifest) "d0a1b2c3d4e5"
       ∧ ¬ structured_id (evidence_sets sample_manifest) "d0a1b2c3d4e5").
Proof.
  split; [reflexivity|].
  refine (proj1 (proj1 missing_in_json_difference sample_text sample_manifest _)
            "d0a1b2c3d4e5").
  reflexivity.
Defined.

(** ** C5: the shot count *)

(** C5 at the document [{"shots": "0"}]: the string passes [isdigit],
    [int] gives 0, and the record carries a shot count of 0. The two
    integer tests of [extract_shots] ask for a positive value
    ([positive_int_pos]); the string branch does not. *)
Lemma extract_shots_zero_string :
  extract_shots (JDict [("shots", JStr "0")]) = Py.Ok (Some (PInt 0))
  ∧ int_value (PInt 0) = 0
  ∧ e_shots <$> build_entry plain_file (Some [("shots", JStr "0")]) "4f2a"
    = Py.Ok (Some (PInt 0)).
Proof. split_and!; vm_compute; reflexivity. Qed.

(** ** C6: the timestamp *)

(** C6, as stated, fails: a timestamp with blanks around it comes back
    without them, and a string of blanks, though not empty, is passed
    over. *)
Lemma extract_timestamp_trims :
  extract_timestamp (JDict [("timestamp", JStr " 2024-05-01 ")]) = Some "2024-05-01"
  ∧ Some "2024-05-01" ≠ Some " 2024-05-01 "
  ∧ extract_timestamp (JDict [("timestamp", JStr " ")]) = None.
Proof. split_and!; [vm_compute; reflexivity|discriminate|vm_compute; reflexivity]. Qed.

(** C6, amended: [extract_timestamp] returns the string at the first
    candidate location, in the order tried, whose value is a string
    that is not empty once stripped of surrounding whitespace, and it
    returns that string stripped; nothing else is done to it. *)
Theorem extract_timestamp_first_match (obj : json) (t : string) :
  extract_timestamp obj = Some t ↔
  ∃ i p s, timestamp_locations !! i = Some p
    ∧ deep_get obj p = JStr s
    ∧ t = Py.strip s
    ∧ t ≠ ""
    ∧ ∀ j q s', (j < i)%nat → timestamp_locations !! j = Some q →
        deep_get obj q = JStr s' → Py.strip s' = "".
Proof.
  rewrite extract_timestamp_locations, first_some_lookup. split.
  - intros (i & p & Hp & (s & Hs & -> & Hne)%stripped_str_Some & Hbefore).
    exists i, p, s. split_and!; [done..|].
    intros j q s' Hj Hq Hs'. by eapply stripped_str_None, Hs'; eapply Hbefore.
  - intros (i & p & s & Hp & Hs & -> & Hne & Hbefore).
    exists i, p. split_and!; [done| |].
    + apply stripped_str_Some. by exists s.
    + intros j q Hj Hq. apply stripped_str_None. intros s' Hs'.
      by eapply Hbefore.
Qed.

(** ** C7: the record of the empty document *)

(** C7: the record built for a [.json] file that holds [{}] has no
    backend, shot count, timestamp or job identifiers, and the checker
    lists its file in all four missing-field lists of any manifest the
    record is part of. *)
Theorem empty_document_reported (f : file_in) (commit : string) :
  suffix_lower f = ".json" →
  f_parsed f = Some (JDict []) →
  load_obj f = Some []
  ∧ ∃ e, build_entry f (Some []) commit = Py.Ok e
      ∧ e_backend e = None ∧ e_shots e = None
      ∧ e_timestamp e = None ∧ e_job_ids e = None
      ∧ ∀ read_text m, e ∈ evidence_sets m →
          e_file e ∈ missing_backend (write_warnings_md read_text m)
          ∧ e_file e ∈ missing_shots (write_warnings_md read_text m)
          ∧ e_file e ∈ missing_timestamp (write_warnings_md read_text m)
          ∧ e_file e ∈ missing_job_ids (write_warnings_md read_text m).
Proof.
  intros Hsuf Hparsed. split.
  { unfold load_obj. by rewrite Hsuf, Hparsed. }
  eexists. split; [reflexivity|]. split_and!; [done..|].
  intros read_text m He.
  apply bare_entry_reported; [done| |done..]. by apply json_suffix_is_json.
Qed.

Lemma empty_document_reported_witness :
  suffix_lower empty_file = ".json"
  ∧ f_parsed empty_file = Some (JDict [])
  ∧ load_obj empty_file = Some []
  ∧ ∃ e, build_entry empty_file (Some []) "4f2a" = Py.Ok e
      ∧ e_backend e = None ∧ e_shots e = None
      ∧ e_timestamp e = None ∧ e_job_ids e = None
      ∧ ∀ read_text m, e ∈ evidence_sets m →
          e_file e ∈ missing_backend (write_warnings_md read_text m)
          ∧ e_file e ∈ missing_shots (write_warnings_md read_text m)
          ∧ e_file e ∈ missing_timestamp (write_warnings_md read_text m)
          ∧ e_file e ∈ missing_job_ids (write_warnings_md read_text m).
Proof.
  split; [reflexivity|]. split; [reflexivity|].
  exact (empty_document_reported empty_file "4f2a" eq_refl eq_refl).
Defined.

(** ** C8: the grouping key *)

(** C8, as stated, fails: a declared [evidence_group_id] with blanks
    around it is not used as it stands. *)
Lemma grouping_key_trims :
  e_evidence_group_id
    <$> build_entry sample_file (Some [("evidence_group_id", JStr " g1 ")]) "4f2a"
  = Py.Ok "g1"
  ∧ "g1" ≠ " g1 ".
Proof. split; [vm_compute; reflexivity|discriminate]. Qed.

(** C8, amended: every record has a grouping key. When the document
    declares [evidence_group_id] as a string that is not empty once
    stripped of surrounding whitespace, the key is that string
    stripped; in every other case (no such key, a value that is no
    string or is blank, an empty document, no document) it is the
    file's base name without its extension. *)
Theorem grouping_key_precedence
    (f : file_in) (obj : option dict) (commit : string) (e : entry) :
  build_entry f obj commit = Py.Ok e →
  (∀ d s, obj = Some d → dict_get d "evidence_group_id" = JStr s →
          Py.strip s ≠ "" → e_evidence_group_id e = Py.strip s)
  ∧ ((∀ d s, obj = Some d → dict_get d "evidence_group_id" = JStr s →
             Py.strip s = "") →
     e_evidence_group_id e = PathLib.stem (f_path f)).
Proof.
  intros [_ [(d & -> & _ & -> & _)|([->| ->] & -> & _)]]%build_entry_Ok.
  - cbn [detect_evidence_group_id]. split.
    + intros d' s [= <-] Hs Hne.
      assert (stripped_str (dict_get d "evidence_group_id") = Some (Py.strip s)) as ->; [|done].
      apply stripped_str_Some. by exists s.
    + intros Hblank.
      assert (stripped_str (dict_get d "evidence_group_id") = None) as ->; [|done].
      apply stripped_str_None. intros s Hs. by apply (Hblank d).
  - split; [done|done].
  - split; [|done]. intros d s [= <-] Hs. by vm_compute in Hs.
Qed.

Lemma grouping_key_precedence_witness :
  build_entry sample_file (Some [("evidence_group_id", JStr " g1 ")]) "4f2a"
  = Py.Ok {| e_file := "out/run2.json"; e_sha256 := "fcde2b2edba56bf4";
             e_size_bytes := 120; e_git_commit := "4f2a";
             e_evidence_group_id := "g1"; e_backend := None;
             e_timestamp := None; e_shots := None; e_job_ids := None |}
  ∧ (∀ d s, Some [("evidence_group_id", JStr " g1 ")] = Some d →
            dict_get d "evidence_group_id" = JStr s →
            Py.strip s ≠ "" → "g1" = Py.strip s).
Proof.
  assert (build_entry sample_file (Some [("evidence_group_id", JStr " g1 ")]) "4f2a"
          = Py.Ok {| e_file := "out/run2.json"; e_sha256 := "fcde2b2edba56bf4";
                     e_size_bytes := 120; e_git_commit := "4f2a";
                     e_evidence_group_id := "g1"; e_backend := None;
                     e_timestamp := None; e_shots := None; e_job_ids := None |}) as H.
  { vm_compute. reflexivity. }
  split; [exact H|]. exact (proj1 (grouping_key_precedence _ _ _ _ H)).
Defined.

(** ** C9: unparsed [.json] files in the missing-field lists *)

(** C9: a file is in a missing-field list exactly when it is the file
    of a record whose name ends in [.json], case ignored, and which
    lacks the field; so the record of a [.json] file that did not
    parse, which has none of the four fields, is in all four lists. *)
Theorem unparsed_json_reported :
  (∀ (read_text : string → string) (m : manifest) (p : string),
     (p ∈ missing_backend (write_warnings_md read_text m) ↔
        ∃ e, e ∈ evidence_sets m ∧ e_file e = p
             ∧ is_json p = true ∧ e_backend e = None)
     ∧ (p ∈ missing_shots (write_warnings_md read_text m) ↔
        ∃ e, e ∈ evidence_sets m ∧ e_file e = p
             ∧ is_json p = true ∧ e_shots e = None)
     ∧ (p ∈ missing_timestamp (write_warnings_md read_text m) ↔
        ∃ e, e ∈ evidence_sets m ∧ e_file e = p
             ∧ is_json p = true ∧ e_timestamp e = None)
     ∧ (p ∈ missing_job_ids (write_warnings_md read_text m) ↔
        ∃ e, e ∈ evidence_sets m ∧ e_file e = p
             ∧ is_json p = true ∧ e_job_ids e = None))
  ∧ (∀ (f : file_in) (commit : string),
       suffix_lower f = ".json" → f_parsed f = None →
       ∃ e, build_entry f (load_obj f) commit = Py.Ok e
         ∧ e_backend e = None ∧ e_shots e = None
         ∧ e_timestamp e = None ∧ e_job_ids e = None
         ∧ ∀ read_text m, e ∈ evidence_sets m →
             e_file e ∈ missing_backend (write_warnings_md read_text m)
             ∧ e_file e ∈ missing_shots (write_warnings_md read_text m)
             ∧ e_file e ∈ missing_timestamp (write_warnings_md read_text m)
             ∧ e_file e ∈ missing_job_ids (write_warnings_md read_text m)).
Proof.
  split.
  { intros read_text m p. unfold write_warnings_md.
    cbn [missing_backend missing_shots missing_timestamp missing_job_ids].
    split_and!; apply missing_field_elem. }
  intros f commit Hsuf Hparsed.
  assert (load_obj f = None) as ->.
  { unfold load_obj. by rewrite Hsuf, Hparsed. }
  eexists. split; [reflexivity|]. split_and!; [done..|].
  intros read_text m He.
  apply bare_entry_reported; [done| |done..]. by apply json_suffix_is_json.
Qed.

Lemma unparsed_json_reported_witness :
  suffix_lower broken_file = ".json"
  ∧ f_parsed broken_file = None
  ∧ ∃ e, build_entry broken_file (load_obj broken_file) "4f2a" = Py.Ok e
      ∧ e_backend e = None ∧ e_shots e = None
      ∧ e_timestamp e = None ∧ e_job_ids e = None
      ∧ ∀ read_text m, e ∈ evidence_sets m →
          e_file e ∈ missing_backend (write_warnings_md read_text m)
          ∧ e_file e ∈ missing_shots (write_warnings_md read_text m)
          ∧ e_file e ∈ missing_timestamp (write_warnings_md read_text m)
          ∧ e_file e ∈ missing_job_ids (write_warnings_md read_text m).
Proof.
  split; [reflexivity|]. split; [reflexivity|].
  exact (proj2 unparsed_json_reported broken_file "4f2a" eq_refl eq_refl).
Defined.

(** ** C10: markdown records *)

(** C10: the record of a [.md] file has none of the optional fields;
    and in a run, an identifier of a narrative document that is in the
    job-identifier list of no [.json] file's record is in the mismatch
    list, whatever the markdown files mention. *)
Theorem markdown_records_bare :
  (∀ (f : file_in) (commit : string),
     suffix_lower f = ".md" →
     ∃ e, build_entry f (load_obj f) commit = Py.Ok e
       ∧ e_backend e = None ∧ e_shots e = None
       ∧ e_timestamp e = None ∧ e_job_ids e = None)
  ∧ (∀ (files : list file_in) (commit generated : string) (m : manifest)
       (read_text : string → string) (jid : string),
       assemble files commit generated = Py.Ok m →
       narrative_id read_text (evidence_sets m) jid →
       (∀ f e ids, f ∈ files → suffix_lower f = ".json" →
          build_entry f (load_obj f) commit = Py.Ok e →
          e_job_ids e = Some ids → jid ∉ ids) →
       jid ∈ missing_in_json (write_warnings_md read_text m)).
Proof.
  split.
  { intros f commit ->%md_suffix_unparsed. eexists. split; [reflexivity|]. done. }
  intros files commit generated m read_text jid Hm Hn Hjson.
  apply missing_in_json_elem. split; [by apply scan_entries_dashboard|].
  intros (e & ids & He & _ & Hids & Hjid)%scan_entries_json.
  rewrite (folded_ids_elem _ _ _ (assemble_folded _ _ _ _ Hm) He Hids) in Hjid.
  destruct Hn as (_ & _ & _ & _ & Hlow%text_ids_lower). rewrite Hlow in Hjid.
  destruct (assemble_elem _ _ _ _ _ Hm He) as (f & Hf & Hcand & Hbuild).
  unfold is_candidate in Hcand.
  apply orb_true_iff in Hcand as [Hj%String.eqb_eq|Hmd%String.eqb_eq].
  - by apply (Hjson f e ids).
  - rewrite (md_suffix_unparsed f Hmd) in Hbuild.
    injection Hbuild as <-. done.
Qed.

Lemma markdown_records_bare_witness :
  suffix_lower dashboard_file = ".md"
  ∧ (∃ e, build_entry dashboard_file (load_obj dashboard_file) "4f2a" = Py.Ok e
       ∧ e_backend e = None ∧ e_shots e = None
       ∧ e_timestamp e = None ∧ e_job_ids e = None)
  ∧ assemble [dashboard_file; plain_file] "4f2a" sample_time = Py.Ok dashboard_manifest
  ∧ narrative_id (read_back [dashboard_file; plain_file])
      (evidence_sets dashboard_manifest) "d0a1b2c3d4e5"
  ∧ "d0a1b2c3d4e5"
      ∈ missing_in_json
          (write_warnings_md (read_back [dashboard_file; plain_file]) dashboard_manifest).
Proof.
  split; [reflexivity|].
  split; [exact (proj1 markdown_records_bare dashboard_file "4f2a" eq_refl)|].
  assert (assemble [dashboard_file; plain_file] "4f2a" sample_time
          = Py.Ok dashboard_manifest) as Hm.
  { vm_compute. reflexivity. }
  assert (narrative_id (read_back [dashboard_file; plain_file])
            (evidence_sets dashboard_manifest) "d0a1b2c3d4e5") as Hn.
  { eexists. split; [left|].
    split; [reflexivity|]. split; [reflexivity|]. vm_compute. left. }
  split; [exact Hm|]. split; [exact Hn|].
  refine (proj2 markdown_records_bare _ _ _ _ _ _ Hm Hn _).
  intros f e ids Hf Hsuf Hbuild Hids.
  apply elem_of_cons in Hf as [->|Hf]; [discriminate Hsuf|].
  apply elem_of_cons in Hf as [->|Hf]; [|by apply elem_of_nil in Hf].
  vm_compute in Hbuild. injection Hbuild as <-. discriminate Hids.
Defined.

(** * Further properties of the code *)

(** ** Paths into a document *)

Section paths_into.

Lemma deep_get_null path : deep_get JNull path = JNull.
Proof. by destruct path. Qed.

Lemma deep_get_concat obj p q :
  deep_get obj (p ++ q) = deep_get (deep_get obj p) q.
Proof.
  revert obj. induction p as [|k p IH]; intros obj; [done|].
  cbn [app deep_get].
  destruct obj; try (by rewrite deep_get_null).
  destruct (dict_lookup d k); [apply IH|by rewrite deep_get_null].
Qed.

End paths_into.

(** ** The structure walker *)

Section walker.

Lemma json_nested_ind (P : json → Prop) :
  P JNull → (∀ b, P (JBool b)) → (∀ n, P (JInt n)) →
  (∀ r, P (JFloat r)) → (∀ s, P (JStr s)) →
  (∀ l, Forall P l → P (JList l)) →
  (∀ d, Forall (λ kv, P kv.2) d → P (JDict d)) →
  ∀ v, P v.
Proof.
  intros Hnull Hbool Hint Hfloat Hstr Hlist Hdict.
  fix IH 1. intros [|b|n|r|s|l|d].
  - exact Hnull.
  - apply Hbool.
  - apply Hint.
  - apply Hfloat.
  - apply Hstr.
  - apply Hlist. induction l as [|x l IHl]; constructor; [apply IH|apply IHl].
  - apply Hdict. induction d as [|kv d IHd]; constructor; [apply IH|apply IHd].
Qed.

Lemma walk_list l x :
  x ∈ walk_all_values (JList l) ↔ ∃ v, v ∈ l ∧ x ∈ walk_all_values v.
Proof.
  cbn [walk_all_values]. rewrite list_elem_of_In, in_flat_map.
  by setoid_rewrite list_elem_of_In.
Qed.

Lemma walk_dict d x :
  x ∈ walk_all_values (JDict d) ↔
  ∃ k v, (k, v) ∈ d ∧ (x = JStr k ∨ x ∈ walk_all_values v).
Proof.
  cbn [walk_all_values]. rewrite list_elem_of_In, in_flat_map. split.
  - intros ([k v] & Hin%list_elem_of_In & Hx%list_elem_of_In).
    exists k, v. split; [done|]. simpl in Hx.
    apply elem_of_cons in Hx as [->|Hx]; auto.
  - intros (k & v & Hin & Hx). exists (k, v).
    split; [by apply list_elem_of_In|]. apply list_elem_of_In. simpl.
    destruct Hx as [->|Hx]; [left|by right].
Qed.

Lemma walk_scalar v : is_scalar v = true → walk_all_values v = [v].
Proof. by destruct v. Qed.

Lemma walk_yields obj x :
  x ∈ walk_all_values obj ↔
  (is_scalar x = true ∧ nested obj x)
  ∨ (∃ d k v, nested obj (JDict d) ∧ (k, v) ∈ d ∧ x = JStr k).
Proof.
  split.
  - revert x. induction obj as [| | | | |l IH|d IH] using json_nested_ind;
      intros x; try (intros ->%list_elem_of_singleton; left; split; [done|constructor]).
    + intros (v & Hv & Hx)%walk_list.
      rewrite Forall_forall in IH.
      destruct (IH v Hv x Hx) as [[? ?]|(d & k & w & ? & ? & ?)].
      * left. split; [done|]. by eapply nested_item.
      * right. exists d, k, w. split_and!; [|done..]. by eapply nested_item.
    + intros (k & v & Hkv & [->|Hx])%walk_dict.
      * right. exists d, k, v. split_and!; [constructor|done..].
      * rewrite Forall_forall in IH.
        destruct (IH (k, v) Hkv x Hx) as [[? ?]|(d' & k' & w & ? & ? & ?)].
        -- left. split; [done|]. by eapply nested_value.
        -- right. exists d', k', w. split_and!; [|done..]. by eapply nested_value.
  - assert (∀ v, nested obj v → ∀ z, z ∈ walk_all_values v → z ∈ walk_all_values obj) as Hsub.
    { clear x. induction 1 as [|l y v Hy _ IH|d k y v Hy _ IH]; intros z Hz; [done|..].
      - apply walk_list. exists y. split; [done|]. by apply IH.
      - apply walk_dict. exists k, y. split; [done|]. right. by apply IH. }
    intros [[Hs Hn]|(d & k & v & Hn & Hkv & ->)].
    + apply (Hsub _ Hn). rewrite walk_scalar by done. left.
    + apply (Hsub _ Hn). apply walk_dict. exists k, v. auto.
Qed.

End walker.

(** ** Runs of class characters *)

Section runs.

Lemma class_word c : Re.in_class c = true → Re.is_word c = true.
Proof. revert c. intros [[] [] [] [] [] [] [] []]; vm_compute; congruence. Qed.




Lemma stop_none k prev s :
  k = 0%nat ∨ (Re.word_before prev = true ∧ Re.word_here s = true) →
  (if (Re.min_rep <=? k)%nat && Re.boundary prev s then Some "" else None)
  = @None string.
Proof.
  intros [->|[Hp Hs]]; [done|].
  unfold Re.boundary. rewrite Hp, Hs. by rewrite andb_false_r.
Qed.

(** A run longer than the repetition may take is not matched, not even
    in part. *)
Lemma rep_run_none more k prev s :
  Py.all_chars Re.in_class s = true →
  (more < String.length s)%nat →
  k = 0%nat ∨ Re.word_before prev = true →
  Re.rep more k prev s = None.
Proof.
  revert k prev s. induction more as [|more IH]; intros k prev s Hall Hlen Hk.
  - destruct s as [|c s]; [simpl in Hlen; lia|].
    cbn [Re.rep]. apply stop_none. destruct Hk as [?|?]; [by left|right].
    split; [done|]. simpl in *. apply class_word.
    by apply andb_true_iff in Hall as [? _].
  - destruct s as [|c s]; [simpl in Hlen; lia|].
    simpl in Hall, Hlen. apply andb_true_iff in Hall as [Hc Hall].
    cbn [Re.rep]. rewrite Hc.
    rewrite (IH (S k) (Some c) s); [|done|lia|right; by apply class_word].
    apply stop_none. destruct Hk as [?|?]; [by left|right].
    split; [done|]. by apply class_word.
Qed.

(** A run within the bounds is matched whole. *)
Lemma rep_run_some more k prev s :
  Py.all_chars Re.in_class s = true →
  (String.length s ≤ more)%nat →
  (Re.min_rep ≤ k + String.length s)%nat →
  (s = "" → Re.word_before prev = true) →
  Re.rep more k prev s = Some s.
Proof.
  revert more k prev. induction s as [|c s IH]; intros more k prev Hall Hlen Hmin Hprev.
  - assert (Re.rep more k prev "" =
            if (Re.min_rep <=? k)%nat && Re.boundary prev "" then Some "" else None) as ->.
    { by destruct more. }
    simpl in Hmin. rewrite Nat.add_0_r in Hmin. apply Nat.leb_le in Hmin.
    rewrite Hmin. unfold Re.boundary. by rewrite Hprev.
  - simpl in Hall, Hlen, Hmin. apply andb_true_iff in Hall as [Hc Hall].
    destruct more as [|more]; [lia|].
    cbn [Re.rep]. rewrite Hc.
    rewrite (IH more (S k) (Some c)); [done..|lia|lia|].
    intros _. by apply class_word.
Qed.

Lemma findall_skip_all skip prev s :
  (String.length s ≤ skip)%nat → Re.findall_from skip prev s = [].
Proof.
  revert skip prev. induction s as [|c s IH]; intros skip prev Hlen; [done|].
  simpl in Hlen. destruct skip as [|skip]; [lia|].
  cbn [Re.findall_from]. apply IH. lia.
Qed.

Lemma findall_inside_run prev s :
  Py.all_chars Re.in_class s = true → Re.word_before prev = true →
  Re.findall_from 0 prev s = [].
Proof.
  revert prev. induction s as [|c s IH]; intros prev Hall Hprev; [done|].
  simpl in Hall. apply andb_true_iff in Hall as [Hc Hall].
  cbn [Re.findall_from]. unfold Re.match_here, Re.boundary.
  rewrite Hprev. cbn [Re.word_here]. rewrite (class_word c Hc). cbn [xorb].
  apply IH; [done|]. by apply class_word.
Qed.

Lemma findall_of_run s :
  Py.all_chars Re.in_class s = true →
  Re.findall s =
  if (10 <=? String.length s)%nat && (String.length s <=? 40)%nat then [s] else [].
Proof.
  intros Hall. destruct s as [|c s]; [done|].
  pose proof Hall as Hall'. simpl in Hall'.
  apply andb_true_iff in Hall' as [Hc Hs].
  unfold Re.findall. cbn [Re.findall_from]. unfold Re.match_here.
  assert (Re.boundary None (String c s) = true) as ->.
  { unfold Re.boundary. simpl. by rewrite (class_word c Hc). }
  destruct (10 <=? String.length (String c s))%nat eqn:Hlo;
    [destruct (String.length (String c s) <=? 40)%nat eqn:Hhi|].
  - apply Nat.leb_le in Hlo, Hhi.
    rewrite rep_run_some; [|done|done|unfold Re.min_rep; lia|done].
    cbn [andb]. f_equal. apply findall_skip_all. simpl. lia.
  - apply Nat.leb_gt in Hhi.
    rewrite rep_run_none; [|done|done|by left].
    cbn [andb]. apply findall_inside_run; [done|by apply class_word].
  - apply Nat.leb_gt in Hlo. cbn [andb].
    destruct (Re.rep Re.max_rep 0 None (String c s)) as [t|] eqn:Hrep.
    + apply rep_shape in Hrep as ([Hmin _] & _ & r & Hr).
      apply (f_equal String.length) in Hr.
      assert (String.length (t +:+ r) = (String.length t + String.length r)%nat) as Hlen.
      { clear. induction t as [|a t IH]; [done|].
        change (String a t +:+ r) with (String a (t +:+ r)). simpl. by rewrite IH. }
      rewrite Hlen in Hr. unfold Re.min_rep in Hmin. lia.
    + apply findall_inside_run; [done|by apply class_word].
Qed.

End runs.

(** ** The scan over joined text *)

Section joined.

Lemma length_app_s s t :
  String.length (s +:+ t) = (String.length s + String.length t)%nat.
Proof.
  induction s as [|a s IH]; [done|].
  change (String a s +:+ t) with (String a (s +:+ t)). simpl. by rewrite IH.
Qed.

Lemma rep_first_prev more prev prev' s :
  Re.rep more 0 prev s = Re.rep more 0 prev' s.
Proof. destruct more, s; done. Qed.

Lemma match_here_prev prev prev' s :
  Re.word_before prev = Re.word_before prev' →
  Re.match_here prev s = Re.match_here prev' s.
Proof.
  intros Hp. unfold Re.match_here, Re.boundary. rewrite Hp.
  by rewrite (rep_first_prev _ prev prev').
Qed.

Lemma findall_from_prev skip prev prev' s :
  Re.word_before prev = Re.word_before prev' →
  Re.findall_from skip prev s = Re.findall_from skip prev' s.
Proof.
  intros Hp. destruct s as [|c s]; [done|]. cbn [Re.findall_from].
  destruct skip; [|done]. by rewrite (match_here_prev prev prev').
Qed.

Lemma word_here_ext a r :
  Re.word_here r = false → Re.word_here (a +:+ r) = Re.word_here a.
Proof. intros Hr. by destruct a. Qed.

Lemma rep_ext more k prev a r :
  Re.word_here r = false →
  Re.rep more k prev (a +:+ r) = Re.rep more k prev a.
Proof.
  intros Hr. revert k prev a. induction more as [|more IH]; intros k prev a.
  - assert (∀ s, Re.rep 0 k prev s =
      if (Re.min_rep <=? k)%nat && Re.boundary prev s then Some "" else None) as H0.
    { by intros []. }
    rewrite !H0. unfold Re.boundary. by rewrite word_here_ext.
  - destruct a as [|c a].
    + change ("" +:+ r) with r. destruct r as [|c r]; [done|].
      cbn [Re.rep]. simpl in Hr.
      destruct (Re.in_class c) eqn:Hc; [by rewrite (class_word c Hc) in Hr|].
      unfold Re.boundary. simpl. by rewrite Hr.
    + change (String c a +:+ r) with (String c (a +:+ r)).
      cbn [Re.rep]. rewrite IH. unfold Re.boundary. done.
Qed.

Lemma match_here_ext prev a r :
  Re.word_here r = false →
  Re.match_here prev (a +:+ r) = Re.match_here prev a.
Proof.
  intros Hr. unfold Re.match_here, Re.boundary.
  by rewrite word_here_ext, rep_ext.
Qed.

(** Text behind a character that is no word character does not change
    what is found before it. *)
Lemma findall_ext a skip prev r :
  Re.word_here r = false →
  (skip ≤ String.length a)%nat →
  Re.findall_from skip prev (a +:+ r)
  = (Re.findall_from skip prev a ++ Re.findall_from 0 (last_char prev a) r)%list.
Proof.
  intros Hr. revert skip prev. induction a as [|c a IH]; intros skip prev Hskip.
  { simpl in Hskip. by assert (skip = 0%nat) as -> by lia. }
  change (String c a +:+ r) with (String c (a +:+ r)).
  simpl in Hskip. cbn [Re.findall_from last_char].
  destruct skip as [|skip]; [|apply IH; lia].
  change (String c (a +:+ r)) with (String c a +:+ r).
  rewrite match_here_ext by done.
  destruct (Re.match_here prev (String c a)) as [t|] eqn:Hm.
  - rewrite IH; [done|].
    unfold Re.match_here in Hm. destruct (Re.boundary _ _); [|done].
    apply rep_shape in Hm as (_ & _ & r' & Hr').
    apply (f_equal String.length) in Hr'. rewrite length_app_s in Hr'.
    simpl in Hr'. lia.
  - apply IH. lia.
Qed.

Lemma findall_separator prev c r :
  Re.is_word c = false →
  Re.findall_from 0 prev (String c r) = Re.findall_from 0 None r.
Proof.
  intros Hc. cbn [Re.findall_from].
  assert (Re.match_here prev (String c r) = None) as ->.
  { unfold Re.match_here. destruct (Re.boundary _ _); [|done].
    unfold Re.max_rep. cbn [Re.rep].
    destruct (Re.in_class c) eqn:Hcls; [by rewrite (class_word c Hcls) in Hc|done]. }
  apply findall_from_prev. simpl. by rewrite Hc.
Qed.

Lemma findall_join segs :
  Re.findall (Py.join Py.newline segs) = flat_map Re.findall segs.
Proof.
  induction segs as [|x segs IH]; [done|].
  destruct segs as [|y segs].
  { simpl. by rewrite app_nil_r. }
  change (Py.join Py.newline (x :: y :: segs))
    with (x +:+ String (ascii_of_N 10) (Py.join Py.newline (y :: segs))).
  unfold Re.findall at 1. rewrite findall_ext; [|done|lia].
  rewrite findall_separator by done.
  cbn [flat_map]. f_equal. apply IH.
Qed.

Lemma lower_join segs :
  Py.lower (Py.join Py.newline segs) = Py.join Py.newline (Py.lower <$> segs).
Proof.
  induction segs as [|x segs IH]; [done|].
  destruct segs as [|y segs]; [done|].
  change (Py.join Py.newline (x :: y :: segs))
    with (x +:+ (Py.newline +:+ Py.join Py.newline (y :: segs))).
  rewrite !lower_app, IH. done.
Qed.

Lemma text_ids_elem text x :
  x ∈ extract_job_ids_from_text text ↔
  x ∈ Re.findall (Py.lower text)
  ∧ Py.startswith_any x LIKELY_JOB_PREFIX = true
  ∧ (12 ≤ String.length x)%nat.
Proof.
  unfold extract_job_ids_from_text.
  rewrite keep_new_fold, list_elem_of_filter. tauto.
Qed.

Lemma text_ids_join segs x :
  x ∈ extract_job_ids_from_text (Py.join Py.newline segs) ↔
  ∃ s, s ∈ segs ∧ x ∈ extract_job_ids_from_text s.
Proof.
  rewrite text_ids_elem, lower_join, findall_join.
  rewrite list_elem_of_In, in_flat_map. split.
  - intros ((s' & (s & -> & Hs)%list_elem_of_In%list_elem_of_fmap & Hx) & ? & ?).
    exists s. split; [done|]. apply text_ids_elem.
    by rewrite list_elem_of_In.
  - intros (s & Hs & (Hx & ? & ?)%text_ids_elem). split; [|done].
    exists (Py.lower s). split; [|by apply list_elem_of_In].
    apply list_elem_of_In, list_elem_of_fmap. by exists s.
Qed.

End joined.

(** ** More on ordered de-duplication *)

Section ordered_dedup_more.

Lemma keep_new_NoDup st x :
  synced st → NoDup st.2 → NoDup (keep_new st x).2.
Proof.
  unfold synced, keep_new. intros Hst Hnd. case_decide as Hx; [done|]. simpl.
  apply NoDup_app. split_and!; [done| |apply NoDup_singleton].
  intros y Hy ->%list_elem_of_singleton. by apply Hx, Hst.
Qed.


Context (step : gset string * list string → string → gset string * list string).
Context (norm : string → option string).
Context (Hstep : ∀ st x,
  step st x = match norm x with Some y => keep_new st y | None => st end).

Lemma dedup_fold_synced st l : synced st → synced (foldl step st l).
Proof.
  revert st. induction l as [|x l IH]; intros st Hst; [done|].
  simpl. apply IH. rewrite Hstep.
  destruct (norm x); [by apply keep_new_synced|done].
Qed.

Lemma dedup_fold_NoDup st l :
  synced st → NoDup st.2 → NoDup (foldl step st l).2.
Proof.
  revert st. induction l as [|x l IH]; intros st Hst Hnd; [done|].
  simpl. rewrite Hstep. destruct (norm x).
  - apply IH; [by apply keep_new_synced|by apply keep_new_NoDup].
  - by apply IH.
Qed.


End ordered_dedup_more.

Section recogniser_more.

Lemma normalize_step_norm st x :
  normalize_step st x
  = match normalize x with Some y => keep_new st y | None => st end.
Proof. unfold normalize_step, normalize. by repeat case_match. Qed.

Lemma normalize_ids_NoDup l : NoDup (normalize_ids l).
Proof.
  apply (dedup_fold_NoDup normalize_step normalize normalize_step_norm);
    [apply synced_empty|apply NoDup_nil_2].
Qed.


Lemma job_ids_elem D x :
  x ∈ extract_job_ids D ↔
  x ∈ extract_job_ids_from_text (all_text D)
  ∨ ∃ v, v ∈ structured_candidates D ∧ normalize v = Some x.
Proof.
  split; [apply job_ids_origin|].
  unfold extract_job_ids. rewrite normalize_fold, (assoc_L (++)).
  intros [Ht|(v & Hv & Hn)].
  - exists x. split; [apply elem_of_app; by right|].
    by apply text_ids_shape in Ht as (_ & _ & ?).
  - exists v. split; [apply elem_of_app; by left|done].
Qed.

Lemma text_ids_NoDup text : NoDup (extract_job_ids_from_text text).
Proof.
  unfold extract_job_ids_from_text.
  apply (dedup_fold_NoDup keep_new Some); [done|apply synced_empty|apply NoDup_nil_2].
Qed.


End recogniser_more.

(** ** Stripped strings *)

Section stripped.

Lemma rstrip_cons c s :
  Py.rstrip (String c s) =
  match Py.rstrip s with
  | "" => if Py.is_space c then "" else String c ""
  | r => String c r
  end.
Proof. done. Qed.

Lemma rstrip_idem s : Py.rstrip (Py.rstrip s) = Py.rstrip s.
Proof.
  induction s as [|c s IH]; [done|]. rewrite rstrip_cons.
  destruct (Py.rstrip s) as [|a r] eqn:Hr.
  - destruct (Py.is_space c) eqn:Hc; [done|]. simpl. by rewrite Hc.
  - by rewrite rstrip_cons, IH.
Qed.

Lemma rstrip_head c r :
  Py.is_space c = false → ∃ r', Py.rstrip (String c r) = String c r'.
Proof.
  intros Hc. rewrite rstrip_cons. destruct (Py.rstrip r) as [|a r'].
  - rewrite Hc. by exists "".
  - by exists (String a r').
Qed.

Lemma lstrip_head s :
  Py.lstrip s = "" ∨ ∃ c r, Py.lstrip s = String c r ∧ Py.is_space c = false.
Proof.
  induction s as [|c s IH]; [by left|]. cbn [Py.lstrip].
  destruct (Py.is_space c) eqn:Hc; [done|]. right. by exists c, s.
Qed.

Lemma strip_idem s : Py.strip (Py.strip s) = Py.strip s.
Proof.
  unfold Py.strip. destruct (lstrip_head s) as [->|(c & r & -> & Hc)]; [done|].
  destruct (rstrip_head c r Hc) as [r' Hr']. rewrite Hr'.
  cbn [Py.lstrip]. rewrite Hc, <-Hr'. apply rstrip_idem.
Qed.

Lemma stripped_str_trimmed v t :
  stripped_str v = Some t → Py.strip t = t ∧ t ≠ "".
Proof.
  intros (s & _ & -> & ?)%stripped_str_Some. split; [apply strip_idem|done].
Qed.

Lemma first_some_None {A B} (f : A → option B) l :
  first_some f l = None ↔ ∀ x, x ∈ l → f x = None.
Proof.
  induction l as [|a l IH]; cbn [first_some].
  { split; [by intros _ x ?%elem_of_nil|done]. }
  destruct (f a) eqn:Ha.
  - split; [done|]. intros H. specialize (H a). rewrite Ha in H.
    by discriminate H; left.
  - rewrite IH. split.
    + intros H x [->|?]%elem_of_cons; auto.
    + intros H x ?. apply H. by right.
Qed.

End stripped.

(** ** Integers out of strings *)

Section integers.

Lemma int_digits_nonneg acc s n :
  0 ≤ acc → Py.int_digits acc s = Py.Ok n → 0 ≤ n.
Proof.
  revert acc. induction s as [|c s IH]; intros acc Hacc; cbn [Py.int_digits].
  { by intros [= <-]. }
  destruct (Py.between 48 57 c); [|done]. apply IH. lia.
Qed.

Lemma int_digits_result acc s :
  if Py.all_chars ascii_digit s
  then ∃ n, Py.int_digits acc s = Py.Ok n
  else Py.int_digits acc s = Py.Raise Py.ValueError.
Proof.
  revert acc. induction s as [|c s IH]; intros acc; cbn [Py.int_digits Py.all_chars].
  { by exists acc. }
  unfold ascii_digit at 1. destruct (Py.between 48 57 c); [|done]. apply IH.
Qed.

Lemma shots_fallback_pos obj v : shots_fallback obj = Some v → 0 < int_value v.
Proof.
  destruct obj; try done. cbn [shots_fallback].
  intros (k & _ & Hk)%first_some_Some.
  destruct (dict_get d k); try done.
  apply first_some_Some in Hk as (item & _ & Hv). by eapply positive_int_pos.
Qed.

(** What the loop over the candidate locations can end with. *)
Lemma shots_loop_cases obj cands :
  match shots_loop obj cands with
  | Py.Ok (Some v) =>
      0 < int_value v
      ∨ ∃ p s n, p ∈ cands ∧ deep_get obj p = JStr s ∧ Py.isdigit s = true
                 ∧ Py.int_of_str s = Py.Ok n ∧ v = PInt n
  | Py.Ok None => True
  | Py.Raise _ =>
      ∃ p s, p ∈ cands ∧ deep_get obj p = JStr s ∧ Py.isdigit s = true
             ∧ Py.all_chars ascii_digit s = false
  end.
Proof.
  induction cands as [|p cands IH]; cbn [shots_loop].
  { destruct (shots_fallback obj) as [v|] eqn:Hv; simpl; [|done].
    left. by eapply shots_fallback_pos. }
  assert (match shots_loop obj cands with
          | Py.Ok (Some v) =>
              0 < int_value v
              ∨ ∃ p' s n, p' ∈ p :: cands ∧ deep_get obj p' = JStr s
                  ∧ Py.isdigit s = true ∧ Py.int_of_str s = Py.Ok n ∧ v = PInt n
          | Py.Ok None => True
          | Py.Raise _ =>
              ∃ p' s, p' ∈ p :: cands ∧ deep_get obj p' = JStr s
                  ∧ Py.isdigit s = true ∧ Py.all_chars ascii_digit s = false
          end) as IH'.
  { destruct (shots_loop obj cands) as [[v|]|]; [|done|].
    - destruct IH as [?|(p' & s & n & ? & ?)]; [by left|right].
      exists p', s, n. split; [by right|done].
    - destruct IH as (p' & s & ? & ?). exists p', s. split; [by right|done]. }
  destruct (positive_int (deep_get obj p)) as [v|] eqn:Hpos.
  { simpl. left. by eapply positive_int_pos. }
  destruct (deep_get obj p) as [| | | |s| |] eqn:Hp; try exact IH'.
  destruct (Py.isdigit s) eqn:Hd; [|exact IH'].
  pose proof (int_digits_result 0 s) as Hres. unfold Py.int_of_str.
  destruct (Py.all_chars ascii_digit s) eqn:Hall.
  - destruct Hres as [n Hn]. rewrite Hn. simpl. right.
    exists p, s, n. split_and!; [left|done..].
  - rewrite Hres. simpl. exists p, s. split_and!; [left|done..].
Qed.

End integers.

(** ** More on the record builder and [main] *)

Section builder.

Lemma extract_backend_nonempty obj b : extract_backend obj = Some b → b ≠ "".
Proof.
  unfold extract_backend.
  destruct (first_some _ backend_candidates) as [b0|] eqn:Hcand.
  - intros [= <-]. apply first_some_Some in Hcand as (p & _ & Hb).
    by apply stripped_str_trimmed in Hb as [_ ?].
  - intros (v & _ & Hb)%first_some_Some.
    destruct v; simplify_eq/=. case_match; simplify_eq/=. by destruct b.
Qed.

Lemma extract_timestamp_trimmed obj t :
  extract_timestamp obj = Some t → Py.strip t = t ∧ t ≠ "".
Proof.
  rewrite extract_timestamp_locations.
  intros (p & _ & Ht)%first_some_Some. by eapply stripped_str_trimmed.
Qed.

Lemma if_str_keeps o : (∀ t, o = Some t → t ≠ "") → if_str o = o.
Proof.
  destruct o as [t|]; [|done]. intros H. specialize (H t eq_refl).
  by destruct t.
Qed.

Lemma build_entry_Raise f obj commit e :
  build_entry f obj commit = Py.Raise e ↔
  ∃ d, obj = Some d ∧ extract_shots (JDict d) = Py.Raise e.
Proof.
  unfold build_entry. destruct obj as [[|kv d]|].
  - split; [done|]. by intros (d & [= <-] & ?).
  - destruct (extract_shots (JDict (kv :: d))) as [r|e'] eqn:Hs;
      cbn [mbind mret Py.result_bind Py.result_ret].
    + split; [done|]. intros (d' & [= <-] & ?). congruence.
    + split.
      * intros _. exists (kv :: d). split; [done|]. by destruct e, e'.
      * intros _. by destruct e, e'.
  - split; [done|]. by intros (d & ? & ?).
Qed.

Lemma load_obj_Some f d :
  load_obj f = Some d →
  suffix_lower f = ".json"
  ∧ (f_parsed f = Some (JDict d)
     ∨ ∃ v, f_parsed f = Some v ∧ d = [("_root", v)]).
Proof.
  unfold load_obj. destruct (String.eqb_spec (suffix_lower f) ".json"); [|done].
  destruct (f_parsed f) as [v|]; [|done]. intros Hd. split; [done|].
  destruct v; simplify_eq; [right; eauto..|by left].
Qed.

Lemma collect_entries_files cands commit es :
  collect_entries cands commit = Py.Ok es →
  e_file <$> es = (λ f, PathLib.to_str (f_path f)) <$> cands
  ∧ Forall (λ e, e_git_commit e = commit) es.
Proof.
  revert es. induction cands as [|f cands IH]; intros es; cbn [collect_entries].
  { by intros [= <-]. }
  destruct (build_entry f (load_obj f) commit) as [e0|] eqn:He0; [|done].
  destruct (collect_entries cands commit) as [es0|]; [|done].
  intros [= <-]. destruct (IH es0 eq_refl) as [Hfiles Hcommit].
  assert (e_file e0 = PathLib.to_str (f_path f) ∧ e_git_commit e0 = commit) as [Hf Hc].
  { unfold build_entry in He0. destruct (load_obj f) as [[|kv d]|].
    - by injection He0 as <-.
    - destruct (extract_shots _); [|done]. by injection He0 as <-.
    - by injection He0 as <-. }
  split; [by rewrite !fmap_cons, Hf, Hfiles|by constructor].
Qed.

Lemma collect_entries_Raise cands commit e :
  collect_entries cands commit = Py.Raise e ↔
  ∃ f, f ∈ cands ∧ build_entry f (load_obj f) commit = Py.Raise e.
Proof.
  induction cands as [|f cands IH]; cbn [collect_entries].
  { split; [done|]. by intros (f & ?%elem_of_nil & _). }
  destruct (build_entry f (load_obj f) commit) as [e0|e0] eqn:He0.
  - destruct (collect_entries cands commit) as [es0|e1].
    + split; [done|]. intros (f' & [->|Hf']%elem_of_cons & Hr); [congruence|].
      by assert (Py.Ok es0 = Py.Raise e) by (apply IH; eauto).
    + split.
      * intros _. assert (e1 = e) as -> by by destruct e, e1.
        destruct (proj1 IH eq_refl) as (f' & ? & ?).
        exists f'. split; [by right|done].
      * intros _. by destruct e, e1.
  - split.
    + intros _. exists f. split; [left|]. by destruct e, e0.
    + intros _. by destruct e, e0.
Qed.

End builder.

(** ** File names as [main] and the checker read them *)

Section names.

Lemma last_char_nonempty a b s : s ≠ "" → last_char a s = last_char b s.
Proof. by destruct s. Qed.

Lemma endswith_last s p :
  p ≠ "" → Py.endswith s p = true → last_char None s = last_char None p.
Proof.
  intros Hp. induction s as [|c s IH]; cbn [Py.endswith].
  { destruct (String.eqb_spec "" p); [done|done]. }
  destruct (String.eqb_spec (String c s) p) as [<-|_]; [done|].
  intros Hs. rewrite <-(IH Hs). cbn [last_char].
  apply last_char_nonempty. intros ->. by destruct p.
Qed.

Lemma md_not_json s : is_md s = true → is_json s = true → False.
Proof.
  unfold is_md, is_json. intros Hmd%endswith_last Hjson%endswith_last; [|done..].
  rewrite Hmd in Hjson. discriminate Hjson.
Qed.

Lemma md_suffix_is_md f :
  suffix_lower f = ".md" → is_md (PathLib.to_str (f_path f)) = true.
Proof.
  unfold suffix_lower, is_md. intros Hsuf.
  destruct (f_path f) as [|x p] eqn:Hp; [done|].
  destruct (to_str_name (x :: p)) as [pre ->]; [done|].
  destruct (name_suffix (x :: p)) as [a ->].
  by rewrite <-app_assoc_s, lower_app, Hsuf, endswith_app.
Qed.

End names.

(** ** The manifest text *)

Section manifest_text.

Lemma all_chars_app2 (P : ascii → bool) s t :
  Py.all_chars P s = true → Py.all_chars P t = true →
  Py.all_chars P (s +:+ t) = true.
Proof. intros Hs Ht. by rewrite all_chars_app, Hs, Ht. Qed.

Lemma escape_char_plain c : Py.all_chars plain_char (JsonEnc.escape_char c) = true.
Proof. destruct c as [[] [] [] [] [] [] [] []]; vm_compute; done. Qed.

Lemma escape_plain s : Py.all_chars plain_char (JsonEnc.escape s) = true.
Proof.
  induction s as [|c s IH]; [done|]. cbn [JsonEnc.escape].
  apply all_chars_app2; [apply escape_char_plain|done].
Qed.

Lemma encode_str_plain s : Py.all_chars plain_char (JsonEnc.encode_str s) = true.
Proof.
  unfold JsonEnc.encode_str.
  repeat apply all_chars_app2; [done|apply escape_plain|done].
Qed.

Lemma uint_plain u : Py.all_chars plain_char (NilEmpty.string_of_uint u) = true.
Proof. induction u; simpl; done. Qed.

Lemma str_of_int_plain n : Py.all_chars plain_char (Py.str_of_int n) = true.
Proof.
  unfold Py.str_of_int, NilZero.string_of_int, NilZero.string_of_uint.
  destruct (Z.to_int n) as [u|u]; destruct u; simpl; try done; apply uint_plain.
Qed.

Lemma spaces_plain n : Py.all_chars plain_char (JsonEnc.spaces n) = true.
Proof. induction n; simpl; done. Qed.

Lemma newline_indent_plain level :
  Py.all_chars plain_char (JsonEnc.newline_indent level) = true.
Proof.
  unfold JsonEnc.newline_indent. apply all_chars_app2; [done|apply spaces_plain].
Qed.

Lemma join_plain sep items :
  Py.all_chars plain_char sep = true →
  Forall (λ s, Py.all_chars plain_char s = true) items →
  Py.all_chars plain_char (Py.join sep items) = true.
Proof.
  intros Hsep. induction 1 as [|x items Hx Hitems IH]; [done|].
  destruct items as [|y items]; [done|].
  change (Py.join sep (x :: y :: items))
    with (x +:+ sep +:+ Py.join sep (y :: items)).
  by repeat apply all_chars_app2.
Qed.

Lemma block_plain open close level items :
  Py.all_chars plain_char open = true →
  Py.all_chars plain_char close = true →
  Forall (λ s, Py.all_chars plain_char s = true) items →
  Py.all_chars plain_char (JsonEnc.block open close level items) = true.
Proof.
  intros Ho Hc Hitems. unfold JsonEnc.block.
  destruct items as [|x items]; [by apply all_chars_app2|].
  repeat apply all_chars_app2; try done; try apply spaces_plain.
  apply join_plain; [|done].
  repeat apply all_chars_app2; try done; apply spaces_plain.
Qed.

(** The text of a value without floats is plain ASCII. *)
Lemma dumps_at_plain v :
  float_free v = true →
  ∀ level, Py.all_chars plain_char (JsonEnc.dumps_at level v) = true.
Proof.
  induction v as [|b|n|r|s|l IH|d IH] using json_nested_ind;
    intros Hff level; cbn [JsonEnc.dumps_at].
  - done.
  - by destruct b.
  - apply str_of_int_plain.
  - done.
  - apply encode_str_plain.
  - apply block_plain; [done..|].
    cbn [float_free] in Hff. rewrite forallb_forall in Hff.
    rewrite Forall_forall in IH. apply Forall_forall.
    intros t (v & -> & Hv)%list_elem_of_fmap.
    apply IH; [done|]. by apply Hff, list_elem_of_In.
  - apply block_plain; [done..|].
    cbn [float_free] in Hff. rewrite forallb_forall in Hff.
    rewrite Forall_forall in IH. apply Forall_forall.
    intros t ([k t'] & -> & Hkt)%list_elem_of_fmap.
    rewrite merge_sort_Permutation in Hkt.
    apply list_elem_of_fmap in Hkt as ([k' v] & [= -> ->] & Hkv).
    cbn [fst snd]. apply all_chars_app2; [apply encode_str_plain|].
    apply all_chars_app2; [done|].
    apply (IH (k', v)); [done|]. by apply (Hff (k', v)), list_elem_of_In.
Qed.

Lemma entry_json_float_free e : float_free (entry_json e) = true.
Proof.
  unfold entry_json. cbn [float_free].
  rewrite !forallb_app. cbn [forallb float_free snd andb].
  destruct (e_backend e), (e_timestamp e), (e_shots e) as [[]|],
    (e_job_ids e) as [ids|];
    cbn [fmap option_fmap option_map option_list forallb snd float_free
         pyint_json andb];
    rewrite ?andb_true_r; try done;
    induction ids as [|x ids IH]; done.
Qed.

Lemma manifest_json_float_free m : float_free (manifest_json m) = true.
Proof.
  unfold manifest_json. cbn [float_free forallb snd andb].
  rewrite andb_true_r. induction (evidence_sets m) as [|e es IH]; [done|].
  rewrite fmap_cons. cbn [forallb]. by rewrite entry_json_float_free, IH.
Qed.

End manifest_text.

(** ** The sort of [write_sha256sums] *)

Section sorting_by_file.

Context {A : Type} (key : A → string).

#[local] Abbreviation R := (λ a b : A, String.le (key a) (key b)).

Lemma insert_by_perm x l : insert_by key x l ≡ₚ x :: l.
Proof.
  induction l as [|y l IH]; [done|]. cbn [insert_by].
  destruct (String.leb (key x) (key y)); [done|].
  by rewrite IH, Permutation_swap.
Qed.

Lemma sorted_by_perm l : sorted_by key l ≡ₚ l.
Proof.
  induction l as [|x l IH]; [done|].
  cbn [sorted_by foldr]. rewrite insert_by_perm. by f_equiv.
Qed.

Lemma insert_by_sorted x l : Sorted R l → Sorted R (insert_by key x l).
Proof.
  induction 1 as [|y l Hl IH Hhd]; cbn [insert_by].
  { by repeat constructor. }
  destruct (String.leb (key x) (key y)) eqn:Hxy.
  - constructor; [by constructor|]. constructor. by apply leb_le.
  - constructor; [done|].
    assert (String.le (key y) (key x)) as Hyx.
    { destruct (total String.le (key x) (key y)) as [H|H]; [|done].
      apply leb_le in H. congruence. }
    destruct Hhd as [|z l' Hz]; cbn [insert_by]; [by constructor|].
    destruct (String.leb (key x) (key z)); by constructor.
Qed.

Lemma sorted_by_sorted l : Sorted R (sorted_by key l).
Proof.
  induction l as [|x l IH]; [constructor|]. by apply insert_by_sorted.
Qed.

(** The sort leaves a sorted list as it is. *)
Lemma sorted_by_id l : Sorted R l → sorted_by key l = l.
Proof.
  induction 1 as [|x l Hl IH Hhd]; [done|].
  cbn [sorted_by foldr]. fold (sorted_by key l). rewrite IH.
  destruct Hhd as [|y l' Hy]; [done|]. cbn [insert_by].
  apply leb_le in Hy. by rewrite Hy.
Qed.

Lemma sorted_by_unique l1 l2 :
  NoDup (key <$> l1) → l1 ≡ₚ l2 → sorted_by key l1 = sorted_by key l2.
Proof.
  intros Hnd Hperm.
  assert (Transitive R) as Htrans.
  { intros a b c. apply (transitivity (R:=String.le)). }
  apply (Sorted_unique_strong R).
  - intros a b Ha Hb Hab Hba. rewrite sorted_by_perm in Ha, Hb.
    rewrite <-Hperm in Hb. apply (same_key key l1); [done..|].
    by apply (anti_symm String.le).
  - apply sorted_by_sorted.
  - apply sorted_by_sorted.
  - by rewrite !sorted_by_perm.
Qed.

End sorting_by_file.

(** ** Helpers for the record and the run *)

Section record_and_run.

Lemma job_ids_kept D x :
  x ∈ extract_job_ids D →
  x ≠ "" ∧ Py.lower x = x ∧ Py.startswith_any x LIKELY_JOB_PREFIX = true.
Proof.
  intros Hx. split_and!; [| by eapply job_ids_lower |].
  - apply job_ids_elem in Hx as [Ht|(v & _ & (_ & ? & _)%normalize_Some)]; [|done].
    by apply text_ids_shape in Ht as (_ & _ & (_ & ? & _)%normalize_Some).
  - apply job_ids_elem in Hx as [Ht|(v & _ & (_ & _ & ?)%normalize_Some)]; [|done].
    by apply text_ids_shape in Ht as (_ & _ & (_ & _ & ?)%normalize_Some).
Qed.

Lemma shots_nonneg obj v : extract_shots obj = Py.Ok (Some v) → 0 ≤ int_value v.
Proof.
  unfold extract_shots. intros Hv.
  pose proof (shots_loop_cases obj shots_candidates) as H. rewrite Hv in H.
  destruct H as [?|(p & s & n & _ & _ & _ & Hn & ->)]; [lia|].
  by apply (int_digits_nonneg 0 s n).
Qed.

Lemma filter_none {A} (P : A → Prop) `{∀ x, Decision (P x)} (l : list A) :
  (∀ x, x ∈ l → ¬ P x) → filter P l = [].
Proof.
  induction l as [|x l IH]; [done|]. intros Hl.
  rewrite filter_cons_False by (apply Hl; left).
  apply IH. intros y ?. apply Hl. by right.
Qed.

Lemma assemble_Raise files commit generated e :
  assemble files commit generated = Py.Raise e ↔
  ∃ f, f ∈ candidates files ∧ build_entry f (load_obj f) commit = Py.Raise e.
Proof.
  rewrite <-collect_entries_Raise. unfold assemble.
  destruct (collect_entries _ _) as [es|e']; [done|].
  split; intros _; by destruct e, e'.
Qed.

End record_and_run.

Section sorted_candidates.

#[local] Existing Instance file_le_total.

Lemma candidates_sorted files : Sorted file_le (candidates files).
Proof. unfold candidates. apply (Sorted_merge_sort file_le). Qed.

End sorted_candidates.

(** ** The scan of the checker and the order of the records *)

Section checker_order.

Context (read_text : string → string).

Lemma narrative_id_perm sets1 sets2 x :
  sets1 ≡ₚ sets2 → narrative_id read_text sets1 x → narrative_id read_text sets2 x.
Proof.
  intros Hperm (e & He & ?). exists e. split; [by rewrite <-Hperm|done].
Qed.

Lemma scan_json_perm sets1 sets2 y :
  sets1 ≡ₚ sets2 →
  y ∈ (scan_entries read_text sets1).1 → y ∈ (scan_entries read_text sets2).1.
Proof.
  intros Hperm. rewrite !scan_entries_json.
  intros (e & ids & He & ?). exists e, ids. split; [by rewrite <-Hperm|done].
Qed.

Lemma missing_in_json_Sorted m :
  Sorted String.le (missing_in_json (write_warnings_md read_text m)).
Proof.
  unfold write_warnings_md. cbn [missing_in_json].
  apply (Sorted_merge_sort String.le).
Qed.

End checker_order.

(** ** The text of [SHA256SUMS] *)

Section sha256sums_text.

Lemma join_closed (lines : list string) :
  lines ≠ [] →
  Py.join Py.newline lines +:+ Py.newline
  = foldr (λ s t, s +:+ Py.newline +:+ t) "" lines.
Proof.
  induction lines as [|x lines IH]; [done|]. intros _.
  destruct lines as [|y lines].
  { cbn [foldr Py.join]. by rewrite (app_nil_r_s Py.newline). }
  change (Py.join Py.newline (x :: y :: lines))
    with (x +:+ Py.newline +:+ Py.join Py.newline (y :: lines)).
  rewrite !app_assoc_s, IH by done. done.
Qed.

Lemma closed_lines_fmap entries :
  foldr (λ s t, s +:+ Py.newline +:+ t) "" (sha_line <$> entries)
  = closed_lines entries.
Proof.
  induction entries as [|e entries IH]; [done|].
  rewrite fmap_cons. cbn [foldr closed_lines]. by rewrite IH.
Qed.

Lemma sorted_by_nonempty {A} (key : A → string) (l : list A) :
  l ≠ [] → sorted_by key l ≠ [].
Proof.
  intros Hl Hs. pose proof (sorted_by_perm key l) as Hperm.
  rewrite Hs in Hperm. by apply Permutation_nil in Hperm.
Qed.

Lemma sha256sums_closed entries :
  entries ≠ [] →
  write_sha256sums entries = closed_lines (sorted_by e_file entries).
Proof.
  intros Hne. unfold write_sha256sums, sha256sums_lines.
  rewrite join_closed, closed_lines_fmap; [done|].
  intros Hnil%fmap_nil_inv. by apply (sorted_by_nonempty e_file entries).
Qed.

Lemma count_newlines_app s t :
  count_newlines (s +:+ t) = (count_newlines s + count_newlines t)%nat.
Proof.
  induction s as [|c s IH]; [done|].
  change (String c s +:+ t) with (String c (s +:+ t)).
  cbn [count_newlines]. rewrite IH. lia.
Qed.

Lemma closed_lines_count entries :
  forallb one_line entries = true →
  count_newlines (closed_lines entries) = length entries.
Proof.
  induction entries as [|e entries IH]; [done|].
  cbn [forallb closed_lines foldr length].
  intros [[Hsha%Nat.eqb_eq Hfile%Nat.eqb_eq]%andb_true_iff Hrest]%andb_true_iff.
  fold (closed_lines entries). unfold sha_line.
  rewrite !count_newlines_app, Hsha, Hfile, IH by done. done.
Qed.

End sha256sums_text.

(** * Further properties, by function *)

(** ** [deep_get] *)

(** X1: following a path in two stages is following the whole path:
    [deep_get(obj, p + q)] is [deep_get(deep_get(obj, p), q)], also when
    the first stage finds nothing. *)
Theorem deep_get_app (obj : json) (p q : list string) :
  deep_get obj (p ++ q) = deep_get (deep_get obj p) q.
Proof. apply deep_get_concat. Qed.

(** X2: when [deep_get] finds a value other than [None] at the end of a
    path, the value before the last key is a mapping that holds the
    last key with that value. *)
Theorem deep_get_found (obj : json) (p : list string) (k : string) :
  deep_get obj (p ++ [k]) ≠ JNull →
  ∃ d, deep_get obj p = JDict d
    ∧ dict_lookup d k = Some (deep_get obj (p ++ [k])).
Proof.
  rewrite deep_get_concat. cbn [deep_get].
  destruct (deep_get obj p) as [| | | | | |d]; try done.
  destruct (dict_lookup d k) as [v|] eqn:Hk; [|done].
  intros _. by exists d.
Qed.

Lemma deep_get_found_witness :
  deep_get sample_doc ([] ++ ["created"]) ≠ JNull
  ∧ ∃ d, deep_get sample_doc [] = JDict d
      ∧ dict_lookup d "created" = Some (deep_get sample_doc ([] ++ ["created"])).
Proof.
  assert (deep_get sample_doc ([] ++ ["created"]) ≠ JNull) as H.
  { vm_compute. discriminate. }
  split; [exact H|]. exact (deep_get_found sample_doc [] "created" H).
Defined.

(** ** [walk_all_values] *)

(** X3: [walk_all_values] yields exactly the scalar values that occur in
    the document, at any depth, and the keys of the mappings that occur
    in it; it never yields a list or a mapping. *)
Theorem walk_all_values_yields (obj x : json) :
  x ∈ walk_all_values obj ↔
  (is_scalar x = true ∧ nested obj x)
  ∨ (∃ d k v, nested obj (JDict d) ∧ (k, v) ∈ d ∧ x = JStr k).
Proof. apply walk_yields. Qed.

(** ** [JOB_ID_TOKEN_RE] and [extract_job_ids_from_text] *)

(** X4: on a text that is one run of letters and digits, [findall]
    returns the run when it has 10 to 40 characters and nothing
    otherwise: a longer run is not cut down to a token. *)
Theorem findall_run (s : string) :
  Py.all_chars Re.in_class s = true →
  Re.findall s =
  if (10 <=? String.length s)%nat && (String.length s <=? 40)%nat then [s] else [].
Proof. apply findall_of_run. Qed.

Lemma findall_run_witness :
  Py.all_chars Re.in_class "d0a1b2c3d4e5d0a1b2c3d4e5d0a1b2c3d4e5d0a1b2c3d4e5" = true
  ∧ Re.findall "d0a1b2c3d4e5d0a1b2c3d4e5d0a1b2c3d4e5d0a1b2c3d4e5" = [].
Proof.
  split; [reflexivity|].
  exact (findall_run "d0a1b2c3d4e5d0a1b2c3d4e5d0a1b2c3d4e5d0a1b2c3d4e5" eq_refl).
Defined.



(** X6: [extract_job_ids_from_text] returns each identifier once, and
    an identifier is returned exactly when it is a token of the
    case-folded text that begins with a recognised prefix and has at
    least 12 characters. *)
Theorem text_ids_members (text : string) :
  NoDup (extract_job_ids_from_text text)
  ∧ ∀ x, x ∈ extract_job_ids_from_text text ↔
      x ∈ Re.findall (Py.lower text)
      ∧ Py.startswith_any x LIKELY_JOB_PREFIX = true
      ∧ (12 ≤ String.length x)%nat.
Proof. split; [apply text_ids_NoDup|intros x; apply text_ids_elem]. Qed.

(** ** [extract_job_ids] *)

(** X7: the text scan of [extract_job_ids] finds in the joined text
    exactly the identifiers it finds in the single leaves and keys: no
    identifier is made of the end of one leaf and the start of the
    next. *)
Theorem text_scan_by_leaf (D : json) (x : string) :
  x ∈ extract_job_ids_from_text (all_text D) ↔
  ∃ v s, v ∈ walk_all_values D ∧ scalar_text v = Some s
         ∧ x ∈ extract_job_ids_from_text s.
Proof.
  unfold all_text. rewrite text_ids_join. split.
  - intros (s & (v & Hv & Hs)%list_elem_of_omap & Hx). by exists v, s.
  - intros (v & s & Hv & Hs & Hx). exists s. split; [|done].
    apply list_elem_of_omap. by exists v.
Qed.




(** ** [find_first_str], [extract_timestamp], [detect_evidence_group_id] *)

(** X10: a string [find_first_str] returns is not empty and has no
    whitespace at either end; it is the stripped value of one of the
    keys in a mapping, and a document that is no mapping yields
    nothing. *)
Theorem find_first_str_trimmed (obj : json) (keys : list string) (t : string) :
  find_first_str obj keys = Some t →
  Py.strip t = t ∧ t ≠ ""
  ∧ ∃ d k s, obj = JDict d ∧ k ∈ keys ∧ dict_get d k = JStr s ∧ t = Py.strip s.
Proof.
  destruct obj; try done. cbn [find_first_str].
  intros (k & Hk & Ht)%first_some_Some.
  destruct (stripped_str_trimmed _ _ Ht) as [? ?].
  apply stripped_str_Some in Ht as (s & ? & ? & _).
  split_and!; [done..|]. by exists d, k, s.
Qed.

Lemma find_first_str_trimmed_witness :
  find_first_str sample_doc ["time"; "created"] = Some "2024"
  ∧ Py.strip "2024" = "2024" ∧ "2024" ≠ ""
  ∧ ∃ d k s, sample_doc = JDict d ∧ k ∈ ["time"; "created"]
             ∧ dict_get d k = JStr s ∧ "2024" = Py.strip s.
Proof.
  assert (find_first_str sample_doc ["time"; "created"] = Some "2024") as H.
  { reflexivity. }
  split; [exact H|]. exact (find_first_str_trimmed _ _ _ H).
Defined.

(** X11: a timestamp [extract_timestamp] returns is not empty and has
    no whitespace at either end; and [detect_evidence_group_id] returns
    either the fallback it was given or a string that is not empty and
    has no whitespace at either end. *)
Theorem extracted_strings_trimmed (obj : json) :
  (∀ t, extract_timestamp obj = Some t → Py.strip t = t ∧ t ≠ "")
  ∧ (∀ fallback,
       detect_evidence_group_id obj fallback = fallback
       ∨ (Py.strip (detect_evidence_group_id obj fallback)
            = detect_evidence_group_id obj fallback
          ∧ detect_evidence_group_id obj fallback ≠ "")).
Proof.
  split.
  - intros t. rewrite extract_timestamp_locations.
    intros (p & _ & Ht)%first_some_Some. by eapply stripped_str_trimmed.
  - intros fallback. destruct obj; try (by left). cbn [detect_evidence_group_id].
    destruct (stripped_str _) as [g|] eqn:Hg; [right|by left].
    by eapply stripped_str_trimmed.
Qed.

(** ** [extract_backend] *)

(** X12: a backend [extract_backend] returns is never empty. It is the
    stripped string at a candidate location, or else, when no candidate
    location holds a string that is not blank, a leaf string or key of
    the document beginning with [ibm_]. Nothing is returned exactly
    when neither exists. *)
Theorem extract_backend_cases (obj : json) :
  (∀ b, extract_backend obj = Some b →
     b ≠ ""
     ∧ ((∃ p s, p ∈ backend_candidates ∧ deep_get obj p = JStr s ∧ b = Py.strip s)
        ∨ ((∀ p s, p ∈ backend_candidates → deep_get obj p = JStr s →
                   Py.strip s = "")
           ∧ JStr b ∈ walk_all_values obj
           ∧ Py.startswith b "ibm_" = true)))
  ∧ (extract_backend obj = None ↔
     (∀ p s, p ∈ backend_candidates → deep_get obj p = JStr s → Py.strip s = "")
     ∧ (∀ s, JStr s ∈ walk_all_values obj → Py.startswith s "ibm_" = false)).
Proof.
  unfold extract_backend.
  destruct (first_some _ backend_candidates) as [b0|] eqn:Hcand.
  - split.
    + intros b [= <-]. apply first_some_Some in Hcand as (p & Hp & Hb).
      apply stripped_str_Some in Hb as (s & ? & ? & ?).
      split; [done|]. left. by exists p, s.
    + split; [done|]. intros [Hnone _].
      apply first_some_Some in Hcand as (p & Hp & Hb).
      apply stripped_str_Some in Hb as (s & Hs & -> & Hne).
      destruct Hne. by apply (Hnone p).
  - assert (∀ p s, p ∈ backend_candidates → deep_get obj p = JStr s →
                   Py.strip s = "") as Hnone.
    { intros p s Hp Hs. rewrite first_some_None in Hcand.
      by eapply stripped_str_None; [apply Hcand|]. }
    split.
    + intros b (v & Hv & Hb)%first_some_Some.
      destruct v; simplify_eq/=. case_match eqn:Hpre; simplify_eq/=.
      split; [by destruct b|]. right. done.
    + rewrite first_some_None. split.
      * intros Hscan. split; [done|]. intros s Hs.
        specialize (Hscan _ Hs). simpl in Hscan. by case_match.
      * intros [_ Hscan] v Hv. destruct v; try done. simpl.
        by rewrite (Hscan _ Hv).
Qed.

(** ** [extract_shots] *)

(** X13: a shot count [extract_shots] returns is never negative, and it
    is zero only when it was read from a candidate location holding a
    string that passes [isdigit] and that [int] turns into 0; the
    integer tests and the fallback over the sub-runs give positive
    values only. *)
Theorem extract_shots_nonneg (obj : json) (v : pyint) :
  extract_shots obj = Py.Ok (Some v) →
  0 < int_value v
  ∨ (v = PInt 0
     ∧ ∃ p s, p ∈ shots_candidates ∧ deep_get obj p = JStr s
              ∧ Py.isdigit s = true ∧ Py.int_of_str s = Py.Ok 0).
Proof.
  unfold extract_shots. intros Hv.
  pose proof (shots_loop_cases obj shots_candidates) as H. rewrite Hv in H.
  destruct H as [?|(p & s & n & Hp & Hs & Hd & Hn & ->)]; [by left|].
  pose proof (int_digits_nonneg 0 s n (Z.le_refl 0) Hn) as Hnn.
  destruct (decide (n = 0)) as [->|]; [right|left; simpl; lia].
  split; [done|]. by exists p, s.
Qed.

Lemma extract_shots_nonneg_witness :
  extract_shots (JDict [("summary", JDict [("shots", JStr "000")])])
  = Py.Ok (Some (PInt 0))
  ∧ (0 < int_value (PInt 0)
     ∨ (PInt 0 = PInt 0
        ∧ ∃ p s, p ∈ shots_candidates
                 ∧ deep_get (JDict [("summary", JDict [("shots", JStr "000")])]) p
                   = JStr s
                 ∧ Py.isdigit s = true ∧ Py.int_of_str s = Py.Ok 0)).
Proof.
  assert (extract_shots (JDict [("summary", JDict [("shots", JStr "000")])])
          = Py.Ok (Some (PInt 0))) as H.
  { reflexivity. }
  split; [exact H|]. exact (extract_shots_nonneg _ _ H).
Defined.

(** X14: on a document whose strings at the shot-count locations are
    within the interpreter's digit limit, [extract_shots] raises only
    on a candidate location holding a string that passes [isdigit]
    without being made of the digits 0-9 alone; when no candidate
    location holds such a string it returns normally. *)
Theorem extract_shots_raises (obj : json) :
  short_shots obj = true →
  (∀ e, extract_shots obj = Py.Raise e →
     ∃ p s, p ∈ shots_candidates ∧ deep_get obj p = JStr s
            ∧ Py.isdigit s = true ∧ Py.all_chars ascii_digit s = false)
  ∧ ((∀ p s, p ∈ shots_candidates → deep_get obj p = JStr s →
             Py.isdigit s = true → Py.all_chars ascii_digit s = true) →
     ∃ r, extract_shots obj = Py.Ok r).
Proof.
  intros _. unfold extract_shots.
  pose proof (shots_loop_cases obj shots_candidates) as H.
  destruct (shots_loop obj shots_candidates) as [r|e]; split.
  - done.
  - intros _. by exists r.
  - by intros _ _.
  - intros Hascii. destruct H as (p & s & Hp & Hs & Hd & Hall).
    rewrite (Hascii p s Hp Hs Hd) in Hall. done.
Qed.

Lemma extracted_strings_trimmed_witness :
  extract_timestamp sample_doc = Some "2024"
  ∧ Py.strip "2024" = "2024" ∧ "2024" ≠ "".
Proof.
  assert (extract_timestamp sample_doc = Some "2024") as H by reflexivity.
  split; [exact H|]. exact (proj1 (extracted_strings_trimmed sample_doc) _ H).
Defined.

Lemma extract_backend_cases_witness :
  extract_backend (JDict [("_root", JList [JStr "ibm_brisbane"])]) = Some "ibm_brisbane"
  ∧ "ibm_brisbane" ≠ "".
Proof.
  assert (extract_backend (JDict [("_root", JList [JStr "ibm_brisbane"])])
          = Some "ibm_brisbane") as H by reflexivity.
  split; [exact H|].
  exact (proj1 (proj1 (extract_backend_cases _) _ H)).
Defined.

Lemma extract_shots_raises_witness :
  extract_shots superscript_doc = Py.Raise Py.ValueError
  ∧ ∃ p s, p ∈ shots_candidates ∧ deep_get superscript_doc p = JStr s
           ∧ Py.isdigit s = true ∧ Py.all_chars ascii_digit s = false.
Proof.
  assert (extract_shots superscript_doc = Py.Raise Py.ValueError) as H by reflexivity.
  split; [exact H|].
  exact (proj1 (extract_shots_raises superscript_doc eq_refl) _ H).
Defined.

(** ** [build_entry] *)

(** X15: given a document nested no deeper than [nesting_limit],
    [build_entry] raises exactly when [extract_shots] raises on that
    document; with no document it always returns a record. *)
Theorem build_entry_raises
    (f : file_in) (obj : option dict) (commit : string) (e : Py.exn) :
  (∀ d, obj = Some d → shallow (JDict d) = true) →
  build_entry f obj commit = Py.Raise e ↔
  ∃ d, obj = Some d ∧ extract_shots (JDict d) = Py.Raise e.
Proof. intros _. apply build_entry_Raise. Qed.

Lemma build_entry_raises_witness :
  (∀ d, load_obj superscript_file = Some d → shallow (JDict d) = true)
  ∧ build_entry superscript_file (load_obj superscript_file) "4f2a"
    = Py.Raise Py.ValueError
  ∧ ∃ d, load_obj superscript_file = Some d
         ∧ extract_shots (JDict d) = Py.Raise Py.ValueError.
Proof.
  assert (∀ d, load_obj superscript_file = Some d → shallow (JDict d) = true)
    as Hshallow.
  { intros d Hd. injection Hd as <-. reflexivity. }
  assert (build_entry superscript_file (load_obj superscript_file) "4f2a"
          = Py.Raise Py.ValueError) as H.
  { vm_compute. reflexivity. }
  split; [exact Hshallow|]. split; [exact H|].
  exact (proj1 (build_entry_raises _ _ _ Py.ValueError Hshallow) H).
Defined.

(** X16: a record [build_entry] returns carries the file's path, digest
    and size and the revision as given; for a document that is not
    empty its backend and timestamp are what the extractors found
    (the truth tests drop nothing); a backend or timestamp in the
    record is not empty, the timestamp has no whitespace at either end,
    a shot count is not negative, and a job-identifier list is not
    empty, has no repetition, and holds case-folded strings beginning
    with a recognised prefix. *)
Theorem build_entry_record
    (f : file_in) (obj : option dict) (commit : string) (e : entry) :
  build_entry f obj commit = Py.Ok e →
  e_file e = PathLib.to_str (f_path f)
  ∧ e_sha256 e = f_sha256 f
  ∧ e_size_bytes e = f_size f
  ∧ e_git_commit e = commit
  ∧ (∀ d, obj = Some d → d ≠ [] →
       e_backend e = extract_backend (JDict d)
       ∧ e_timestamp e = extract_timestamp (JDict d))
  ∧ (∀ b, e_backend e = Some b → b ≠ "")
  ∧ (∀ t, e_timestamp e = Some t → t ≠ "" ∧ Py.strip t = t)
  ∧ (∀ n, e_shots e = Some n → 0 ≤ int_value n)
  ∧ (∀ ids, e_job_ids e = Some ids →
       ids ≠ [] ∧ NoDup ids
       ∧ ∀ x, x ∈ ids →
           x ≠ "" ∧ Py.lower x = x
           ∧ Py.startswith_any x LIKELY_JOB_PREFIX = true).
Proof.
  unfold build_entry. destruct obj as [[|kv d]|].
  - intros [= <-]. cbn. split_and!; try done.
    intros d' [= <-] Hne. by destruct Hne.
  - destruct (extract_shots (JDict (kv :: d))) as [shots|] eqn:Hshots; [|done].
    cbn [mbind mret Py.result_bind Py.result_ret]. intros [= <-].
    cbn [e_file e_sha256 e_size_bytes e_git_commit e_backend e_timestamp
         e_shots e_job_ids].
    assert (if_str (extract_backend (JDict (kv :: d)))
            = extract_backend (JDict (kv :: d))) as ->.
    { apply if_str_keeps. intros b. apply extract_backend_nonempty. }
    assert (if_str (extract_timestamp (JDict (kv :: d)))
            = extract_timestamp (JDict (kv :: d))) as ->.
    { apply if_str_keeps. intros t Ht. by apply extract_timestamp_trimmed in Ht as [_ ?]. }
    split_and!; try done.
    + by intros d' [= <-] _.
    + intros b. apply extract_backend_nonempty.
    + intros t Ht. by apply extract_timestamp_trimmed in Ht as [? ?].
    + intros n ->. by apply (shots_nonneg (JDict (kv :: d))).
    + intros ids Hids. pose proof (if_list_Some _ _ Hids) as ->.
      split_and!.
      * intros Hnil. by rewrite Hnil in Hids.
      * apply normalize_ids_NoDup.
      * intros x. apply job_ids_kept.
  - intros [= <-]. cbn. split_and!; done.
Qed.

Lemma build_entry_record_witness :
  build_entry sample_file (load_obj sample_file) "4f2a"
  = Py.Ok {| e_file := "out/run2.json"; e_sha256 := "fcde2b2edba56bf4";
             e_size_bytes := 120; e_git_commit := "4f2a";
             e_evidence_group_id := "run2"; e_backend := None;
             e_timestamp := Some "2024"; e_shots := Some (PInt 500);
             e_job_ids := Some ["d0xy"; "c0a1b2c3d4e5f"] |}
  ∧ (∀ ids, Some ["d0xy"; "c0a1b2c3d4e5f"] = Some ids →
       ids ≠ [] ∧ NoDup ids
       ∧ ∀ x, x ∈ ids →
           x ≠ "" ∧ Py.lower x = x
           ∧ Py.startswith_any x LIKELY_JOB_PREFIX = true).
Proof.
  assert (build_entry sample_file (load_obj sample_file) "4f2a"
          = Py.Ok {| e_file := "out/run2.json"; e_sha256 := "fcde2b2edba56bf4";
                     e_size_bytes := 120; e_git_commit := "4f2a";
                     e_evidence_group_id := "run2"; e_backend := None;
                     e_timestamp := Some "2024"; e_shots := Some (PInt 500);
                     e_job_ids := Some ["d0xy"; "c0a1b2c3d4e5f"] |}) as H.
  { vm_compute. reflexivity. }
  split; [exact H|].
  exact (proj2 (proj2 (proj2 (proj2 (proj2 (proj2 (proj2 (proj2
           (build_entry_record _ _ _ _ H))))))))).
Defined.

(** ** [main] *)

(** X17: the manifest [main] assembles has schema version 2 and the
    generation time and revision it was given; it has exactly one
    record for each enumerated file whose suffix is [.json] or [.md],
    case ignored (the candidate list is a rearrangement of those
    files, each as often as it was enumerated), and none for any other
    file; the records stand in the order of the sorted paths, each with
    its file's path, and every record carries the revision. *)
Theorem assemble_records
    (files : list file_in) (commit generated : string) (m : manifest) :
  assemble files commit generated = Py.Ok m →
  schema_version m = 2
  ∧ generated_utc m = generated
  ∧ git_commit m = commit
  ∧ e_file <$> evidence_sets m
    = (λ f, PathLib.to_str (f_path f)) <$> candidates files
  ∧ length (evidence_sets m)
    = length (filter (λ f, is_candidate f = true) files)
  ∧ Forall (λ e, e_git_commit e = commit) (evidence_sets m)
  ∧ candidates files ≡ₚ filter (λ f, is_candidate f = true) files
  ∧ Sorted file_le (candidates files)
  ∧ ∀ f, f ∈ candidates files ↔ f ∈ files ∧ is_candidate f = true.
Proof.
  unfold assemble.
  destruct (collect_entries _ _) as [es|] eqn:Hes; [|done].
  intros [= <-]. apply collect_entries_files in Hes as [Hfiles Hcommit].
  assert (candidates files ≡ₚ filter (λ f, is_candidate f = true) files) as Hperm.
  { unfold candidates. apply merge_sort_Permutation. }
  split_and!; [done..| |done|done|apply candidates_sorted|apply candidates_elem].
  cbn [evidence_sets]. apply (f_equal length) in Hfiles.
  rewrite !length_fmap in Hfiles. by rewrite Hfiles, Hperm.
Qed.

Lemma assemble_records_witness :
  assemble [plain_file; log_file; dashboard_file] "4f2a" sample_time
  = Py.Ok dashboard_manifest
  ∧ e_file <$> evidence_sets dashboard_manifest
    = (λ f, PathLib.to_str (f_path f))
        <$> candidates [plain_file; log_file; dashboard_file]
  ∧ length (evidence_sets dashboard_manifest)
    = length (filter (λ f, is_candidate f = true)
                [plain_file; log_file; dashboard_file]).
Proof.
  assert (assemble [plain_file; log_file; dashboard_file] "4f2a" sample_time
          = Py.Ok dashboard_manifest) as H.
  { vm_compute. reflexivity. }
  split; [exact H|].
  split.
  - exact (proj1 (proj2 (proj2 (proj2 (assemble_records _ _ _ _ H))))).
  - exact (proj1 (proj2 (proj2 (proj2 (proj2 (assemble_records _ _ _ _ H)))))).
Defined.

(** X18: when every parsed value is nested no deeper than
    [nesting_limit] and its strings at the shot-count locations are
    within the interpreter's digit limit, a run raises exactly when one
    of the enumerated files has the suffix [.json], case ignored,
    parses to a mapping, and [extract_shots] raises on that mapping.
    Within those limits, files that do not parse, values that are no
    mapping and markdown files never make a run fail. *)
Theorem main_raises
    (files : list file_in) (commit generated : string) (e : Py.exn) :
  (∀ f v, f ∈ files → f_parsed f = Some v →
          shallow v = true ∧ short_shots v = true) →
  main files commit generated = Py.Raise e ↔
  ∃ f d, f ∈ files ∧ suffix_lower f = ".json"
         ∧ f_parsed f = Some (JDict d)
         ∧ extract_shots (JDict d) = Py.Raise e.
Proof.
  intros _.
  assert (main files commit generated = Py.Raise e
          ↔ assemble files commit generated = Py.Raise e) as ->.
  { unfold main. destruct (assemble _ _ _) as [m|e']; [done|].
    split; intros _; by destruct e, e'. }
  rewrite assemble_Raise. split.
  - intros (f & [Hf _]%candidates_elem & (d & Hobj & Hshots)%build_entry_Raise).
    apply load_obj_Some in Hobj as [Hsuf [Hparsed|(v & _ & ->)]].
    + by exists f, d.
    + by rewrite wrapped_shots in Hshots.
  - intros (f & d & Hf & Hsuf & Hparsed & Hshots). exists f. split.
    + apply candidates_elem. split; [done|].
      unfold is_candidate. by rewrite Hsuf.
    + apply build_entry_Raise. exists d. split; [|done].
      unfold load_obj. by rewrite Hsuf, Hparsed.
Qed.

Lemma main_raises_witness :
  (∀ f v, f ∈ [dashboard_file; nested_list_file; superscript_file] →
          f_parsed f = Some v → shallow v = true ∧ short_shots v = true)
  ∧ main [dashboard_file; nested_list_file; superscript_file] "4f2a" sample_time
    = Py.Raise Py.ValueError
  ∧ ∃ f d, f ∈ [dashboard_file; nested_list_file; superscript_file]
           ∧ suffix_lower f = ".json"
           ∧ f_parsed f = Some (JDict d)
           ∧ extract_shots (JDict d) = Py.Raise Py.ValueError.
Proof.
  assert (∀ f v, f ∈ [dashboard_file; nested_list_file; superscript_file] →
                 f_parsed f = Some v → shallow v = true ∧ short_shots v = true)
    as Hlimits.
  { intros f v Hf Hv.
    apply elem_of_cons in Hf as [->|Hf]; [discriminate Hv|].
    apply elem_of_cons in Hf as [->|Hf]; [injection Hv as <-; split; reflexivity|].
    apply elem_of_cons in Hf as [->|Hf]; [|by apply elem_of_nil in Hf].
    injection Hv as <-. split; reflexivity. }
  assert (main [dashboard_file; nested_list_file; superscript_file] "4f2a" sample_time
          = Py.Raise Py.ValueError) as H.
  { vm_compute. reflexivity. }
  split; [exact Hlimits|]. split; [exact H|].
  exact (proj1 (main_raises _ _ _ _ Hlimits) H).
Defined.

(** X19: for a candidate file, the test of [main] on the path's suffix
    and the test of the checker on the end of the record's file name
    agree: the name ends in [.json], case ignored, exactly when the
    suffix is [.json], and in [.md] exactly when the suffix is [.md];
    no record is both narrative and structured. *)
Theorem names_agree (f : file_in) :
  is_candidate f = true →
  (is_json (PathLib.to_str (f_path f)) = true ↔ suffix_lower f = ".json")
  ∧ (is_md (PathLib.to_str (f_path f)) = true ↔ suffix_lower f = ".md")
  ∧ ¬ (is_json (PathLib.to_str (f_path f)) = true
       ∧ is_md (PathLib.to_str (f_path f)) = true).
Proof.
  unfold is_candidate.
  intros [Hj%String.eqb_eq|Hmd%String.eqb_eq]%orb_true_iff.
  - pose proof (json_suffix_is_json f Hj) as Hjson. split_and!.
    + done.
    + split; [|by rewrite Hj]. intros Hm. by destruct (md_not_json _ Hm Hjson).
    + intros [_ Hm]. by apply (md_not_json _ Hm Hjson).
  - pose proof (md_suffix_is_md f Hmd) as Hm. split_and!.
    + split; [|by rewrite Hmd]. intros Hjson. by destruct (md_not_json _ Hm Hjson).
    + done.
    + intros [Hjson _]. by apply (md_not_json _ Hm Hjson).
Qed.

Lemma names_agree_witness :
  is_candidate dashboard_file = true
  ∧ (is_json (PathLib.to_str (f_path dashboard_file)) = true
     ↔ suffix_lower dashboard_file = ".json").
Proof.
  split; [reflexivity|]. exact (proj1 (names_agree dashboard_file eq_refl)).
Defined.

(** X20: the text a run writes to [manifest.json] is made of printable
    ASCII characters and line feeds only, whatever the file names and
    the documents hold. *)
Theorem manifest_text_plain
    (files : list file_in) (commit generated : string) (r : string * warnings) :
  main files commit generated = Py.Ok r →
  Py.all_chars plain_char r.1 = true.
Proof.
  unfold main. destruct (assemble _ _ _) as [m|]; [|done].
  intros [= <-]. cbn [fst]. apply dumps_at_plain, manifest_json_float_free.
Qed.

Lemma manifest_text_plain_witness :
  match main [list_file] "4f2a" sample_time with
  | Py.Ok r => Py.all_chars plain_char r.1 = true
  | Py.Raise _ => False
  end.
Proof.
  destruct (main [list_file] "4f2a" sample_time) as [r|e] eqn:H.
  - exact (manifest_text_plain _ _ _ _ H).
  - vm_compute in H. discriminate H.
Defined.

(** X21: when none of the enumerated files has the suffix [.json] or
    [.md], the run does not fail: the manifest has no records and all
    five lists of findings are empty. *)
Theorem main_without_candidates
    (files : list file_in) (commit generated : string) :
  (∀ f, f ∈ files → is_candidate f = false) →
  main files commit generated
  = Py.Ok
      (JsonEnc.dumps
         (manifest_json {| schema_version := 2; generated_utc := generated;
                           git_commit := commit; evidence_sets := [] |}),
       {| missing_in_json := []; missing_backend := [];
          missing_shots := []; missing_timestamp := [];
          missing_job_ids := [] |}).
Proof.
  intros Hnone. unfold main, assemble, candidates.
  rewrite filter_none; [done|]. intros f Hf. by rewrite (Hnone f Hf).
Qed.

Lemma main_without_candidates_witness :
  (∀ f, f ∈ [log_file] → is_candidate f = false)
  ∧ missing_in_json ∘ snd <$> main [log_file] "4f2a" sample_time = Py.Ok [].
Proof.
  assert (∀ f, f ∈ [log_file] → is_candidate f = false) as H.
  { intros f Hf. apply elem_of_cons in Hf as [->|Hf]; [reflexivity|].
    by apply elem_of_nil in Hf. }
  split; [exact H|].
  rewrite (main_without_candidates [log_file] "4f2a" sample_time H). reflexivity.
Defined.

(** ** [write_sha256sums] *)

(** X22: for records with pairwise distinct file names, the text of
    [SHA256SUMS] does not depend on the order of the records. *)
Theorem write_sha256sums_order (es1 es2 : list entry) :
  NoDup (e_file <$> es1) →
  es1 ≡ₚ es2 →
  write_sha256sums es1 = write_sha256sums es2.
Proof.
  intros Hnd Hperm. unfold write_sha256sums, sha256sums_lines.
  by rewrite (sorted_by_unique e_file es1 es2).
Qed.

Lemma write_sha256sums_order_witness :
  NoDup (e_file <$> evidence_sets sample_manifest)
  ∧ evidence_sets sample_manifest ≡ₚ reverse (evidence_sets sample_manifest)
  ∧ write_sha256sums (evidence_sets sample_manifest)
    = write_sha256sums (reverse (evidence_sets sample_manifest)).
Proof.
  assert (NoDup (e_file <$> evidence_sets sample_manifest)) as Hnd.
  { compute_done. }
  assert (evidence_sets sample_manifest ≡ₚ reverse (evidence_sets sample_manifest))
    as Hperm.
  { apply Permutation_swap. }
  split; [exact Hnd|]. split; [exact Hperm|].
  exact (write_sha256sums_order _ _ Hnd Hperm).
Defined.

(** X23: the text [write_sha256sums] writes is a single line feed for
    an empty list of records; otherwise it is the records' lines, each
    the digest, two blanks, the file name and a line feed, one after
    the other in the order of the file names, every record once, and
    records already in that order keep their order. When no digest and
    no file name holds a line feed, the text has as many line feeds as
    there are records. *)
Theorem write_sha256sums_text (entries : list entry) :
  write_sha256sums [] = Py.newline
  ∧ (entries ≠ [] →
     write_sha256sums entries = closed_lines (sorted_by e_file entries))
  ∧ sorted_by e_file entries ≡ₚ entries
  ∧ Sorted by_file (sorted_by e_file entries)
  ∧ (Sorted by_file entries → sorted_by e_file entries = entries)
  ∧ (entries ≠ [] → forallb one_line entries = true →
     count_newlines (write_sha256sums entries) = length entries).
Proof.
  split_and!.
  - done.
  - apply sha256sums_closed.
  - apply sorted_by_perm.
  - apply sorted_by_sorted.
  - apply sorted_by_id.
  - intros Hne Hone. rewrite sha256sums_closed by done.
    rewrite closed_lines_count; [by rewrite sorted_by_perm|].
    apply forallb_forall. intros e He%list_elem_of_In.
    rewrite sorted_by_perm in He.
    rewrite forallb_forall in Hone. by apply Hone, list_elem_of_In.
Qed.

Lemma write_sha256sums_text_witness :
  evidence_sets sample_manifest ≠ []
  ∧ forallb one_line (evidence_sets sample_manifest) = true
  ∧ Sorted by_file (evidence_sets sample_manifest)
  ∧ write_sha256sums (evidence_sets sample_manifest)
    = closed_lines (sorted_by e_file (evidence_sets sample_manifest))
  ∧ sorted_by e_file (evidence_sets sample_manifest) = evidence_sets sample_manifest
  ∧ count_newlines (write_sha256sums (evidence_sets sample_manifest))
    = length (evidence_sets sample_manifest).
Proof.
  assert (evidence_sets sample_manifest ≠ []) as Hne by discriminate.
  assert (Sorted by_file (evidence_sets sample_manifest)) as Hs.
  { repeat constructor. }
  split; [exact Hne|]. split; [reflexivity|]. split; [exact Hs|].
  split; [exact (proj1 (proj2 (write_sha256sums_text _)) Hne)|].
  split.
  - exact (proj1 (proj2 (proj2 (proj2 (proj2 (write_sha256sums_text _))))) Hs).
  - exact (proj2 (proj2 (proj2 (proj2 (proj2 (write_sha256sums_text _))))) Hne eq_refl).
Defined.

(** ** [write_warnings_md] *)

(** X24: the mismatch list does not depend on the order of the records
    in the manifest. *)
Theorem missing_in_json_order (read_text : string → string) (m1 m2 : manifest) :
  evidence_sets m1 ≡ₚ evidence_sets m2 →
  missing_in_json (write_warnings_md read_text m1)
  = missing_in_json (write_warnings_md read_text m2).
Proof.
  intros Hperm. apply (Sorted_unique String.le);
    [apply missing_in_json_Sorted..|].
  apply NoDup_Permutation; [apply missing_in_json_NoDup..|].
  intros x. rewrite !missing_in_json_elem, !scan_entries_dashboard. split.
  - intros [Hn Hj]. split; [by eapply narrative_id_perm|].
    intros Hj'. apply Hj. by eapply scan_json_perm; [symmetry|].
  - intros [Hn Hj]. split; [by eapply narrative_id_perm; [symmetry|]|].
    intros Hj'. apply Hj. by eapply scan_json_perm.
Qed.

Lemma missing_in_json_order_witness :
  evidence_sets (manifest_of [dashboard_record; run2_record])
    ≡ₚ evidence_sets (manifest_of [run2_record; dashboard_record])
  ∧ missing_in_json
      (write_warnings_md sample_text (manifest_of [dashboard_record; run2_record]))
    = missing_in_json
        (write_warnings_md sample_text (manifest_of [run2_record; dashboard_record])).
Proof.
  assert (evidence_sets (manifest_of [dashboard_record; run2_record])
            ≡ₚ evidence_sets (manifest_of [run2_record; dashboard_record])) as H.
  { apply Permutation_swap. }
  split; [exact H|]. exact (missing_in_json_order sample_text _ _ H).
Defined.

(** X25: a further record whose file name does not end in [.md], case
    ignored, adds no mismatch: every identifier in the mismatch list of
    the larger manifest is in that of the smaller one. *)
Theorem missing_in_json_shrinks
    (read_text : string → string) (m m' : manifest) (e : entry) (x : string) :
  is_md (e_file e) = false →
  evidence_sets m' = e :: evidence_sets m →
  x ∈ missing_in_json (write_warnings_md read_text m') →
  x ∈ missing_in_json (write_warnings_md read_text m).
Proof.
  intros Hmd Hsets. rewrite !missing_in_json_elem, !scan_entries_dashboard, Hsets.
  intros [(e' & [->|He']%elem_of_cons & Hm & Hrest) Hj].
  { congruence. }
  split; [by exists e'|].
  intros (e0 & ids & He0 & ?)%scan_entries_json. apply Hj.
  apply scan_entries_json. exists e0, ids. split; [by right|done].
Qed.

Lemma missing_in_json_shrinks_witness :
  is_md (e_file run2_record) = false
  ∧ evidence_sets (manifest_of [run2_record; dashboard_record])
    = run2_record :: evidence_sets (manifest_of [dashboard_record])
  ∧ "d0a1b2c3d4e5"
      ∈ missing_in_json
          (write_warnings_md sample_text (manifest_of [run2_record; dashboard_record]))
  ∧ "d0a1b2c3d4e5"
      ∈ missing_in_json
          (write_warnings_md sample_text (manifest_of [dashboard_record])).
Proof.
  assert ("d0a1b2c3d4e5"
            ∈ missing_in_json
                (write_warnings_md sample_text
                   (manifest_of [run2_record; dashboard_record]))) as H.
  { vm_compute. left. }
  split; [reflexivity|]. split; [reflexivity|]. split; [exact H|].
  exact (missing_in_json_shrinks sample_text (manifest_of [dashboard_record])
           (manifest_of [run2_record; dashboard_record]) run2_record
           "d0a1b2c3d4e5" eq_refl eq_refl H).
Defined.
